(** * Benchmark comparison scripts: a shallow embedding and its properties

    The two report generators of the repository,
    [scripts/compare_benchmarks.py] (custom benchmark schema) and
    [scripts/compare_template_results.py] (hyperfine schema), are embedded
    as Rocq functions, and the statements of the specification are proved
    or refuted on them.

    Numbers.  A Python number is an [int], of any size, or a [float], a
    binary64 value.  A float is represented by the rational it denotes
    ([Qc], the canonical rationals, whose equality is Leibniz equality),
    and every operation on floats rounds its exact result to the nearest
    binary64 value, ties to even ([Py.binary64]), as IEEE 754 and Python
    do; operations on two ints are exact, and [int / int] rounds the
    exact quotient once.  Comparisons and the raising of
    [ZeroDivisionError] are exact.  Results beyond the largest binary64
    value, the sign of a zero, infinities and NaN are not represented.
    Integer fields of the JSON documents (nanosecond counts, input sizes)
    are [Z]. *)

From Stdlib Require Import QArith Qabs Qcanon Qcabs Qround Lqa.
From stdpp Require Import gmap strings list sorting pretty.

Local Open Scope Z_scope.
Local Open Scope string_scope.
Local Open Scope Qc_scope.
Local Open Scope list_scope.

(** ** Python primitives used by the scripts *)

Module Py.

(** Exceptions that the two scripts can meet on well-typed documents. *)
Inductive exn : Set :=
| ZeroDivisionError
| KeyError.

(** A computation either raises or returns. *)
Inductive result (A : Type) : Type :=
| Raise (e : exn)
| Return (a : A).
Global Arguments Raise {A} e.
Global Arguments Return {A} a.

Global Instance result_ret : MRet result := @Return.
Global Instance result_bind : MBind result := λ A B k m,
  match m with
  | Raise e => Raise e
  | Return a => k a
  end.

(** [for x in l: st = body(st, x)], stopping at the first exception. *)
Fixpoint for_each {S A} (body : S → A → result S) (l : list A) (st : S)
    : result S :=
  match l with
  | [] => mret st
  | x :: l => st' ← body st x; for_each body l st'
  end.

(** *** Numbers *)

(** The literal [n] of the source, as a number. *)
Definition num (n : Z) : Qc := Qc_of_Z n.

(** [==], [<], [>] and [>=] on numbers. *)
Definition eq (x y : Qc) : bool := bool_decide (x = y).
Definition lt (x y : Qc) : bool := bool_decide (x < y).
Definition gt (x y : Qc) : bool := bool_decide (y < x).
Definition ge (x y : Qc) : bool := bool_decide (y ≤ x).

(** The integer nearest to a rational, ties to even. *)
Definition nearest_even (q : Q) : Z :=
  let f := Qfloor q in
  match Qcompare (q - inject_Z f) (1 # 2) with
  | Lt => f
  | Gt => (f + 1)%Z
  | Eq => if Z.even f then f else (f + 1)%Z
  end.

(** [2 ** k], for an integer [k] of either sign. *)
Definition pow2 (k : Z) : Q :=
  if (0 <=? k)%Z then inject_Z (2 ^ k) else 1 # Z.to_pos (2 ^ (- k)).

(** The exponent of the unit in the last place of the binary64 values
    next to [x]: 52 below the binary exponent of [x], and -1074 in the
    subnormal range. *)
Definition ulp_exponent (x : Q) : Z :=
  let e0 := (Z.log2 (Z.abs (Qnum x)) - Z.log2 (Zpos (Qden x)))%Z in
  let e := if Qle_bool (pow2 e0) (Qabs x) then e0 else (e0 - 1)%Z in
  Z.max (e - 52) (-1074).

(** The binary64 value nearest to [x], ties to even: the rounding of
    every float operation, of [float(n)] and of the parsing of a decimal
    literal. *)
Definition binary64 (x : Qc) : Qc :=
  let q := ulp_exponent x in
  Q2Qc (inject_Z (nearest_even (x / pow2 q)) * pow2 q).

(** An [int] or a [float]. *)
Inductive number : Type :=
| Int (n : Z)
| Float (x : Qc).

(** The value of a number, and the number converted to a float. *)
Definition real (a : number) : Qc :=
  match a with
  | Int n => num n
  | Float x => x
  end.

Definition to_float (a : number) : Qc :=
  match a with
  | Int n => binary64 (num n)
  | Float x => x
  end.

(** [a - b] and [a * b]: exact on two ints, rounded otherwise. *)
Definition sub (a b : number) : number :=
  match a, b with
  | Int m, Int n => Int (m - n)
  | _, _ => Float (binary64 (to_float a - to_float b))
  end.

Definition mul (a b : number) : number :=
  match a, b with
  | Int m, Int n => Int (m * n)
  | _, _ => Float (binary64 (to_float a * to_float b))
  end.

(** The float that [a / b] gives for a non-zero [b]: on two ints the
    exact quotient, rounded once. *)
Definition quotient (a b : number) : number :=
  match a, b with
  | Int m, Int n => Float (binary64 (num m / num n))
  | _, _ => Float (binary64 (to_float a / to_float b))
  end.

(** [a / b]: raises on a zero divisor, for ints and floats alike. *)
Definition truediv (a b : number) : result number :=
  if eq (real b) 0 then Raise ZeroDivisionError else Return (quotient a b).

(** The arithmetic is not unfolded by simplification. *)
Global Arguments binary64 : simpl never.
Global Arguments sub : simpl never.
Global Arguments mul : simpl never.
Global Arguments quotient : simpl never.

(** [len(l)] *)
Definition len {A} (l : list A) : Z := Z.of_nat (length l).

(** *** Dictionaries and sets *)

(** [k in d] and [d[k]]. *)
Definition contains {V} (d : gmap string V) (k : string) : bool :=
  bool_decide (is_Some (d !! k)).

Definition getitem {V} (d : gmap string V) (k : string) : result V :=
  match d !! k with
  | Some v => Return v
  | None => Raise KeyError
  end.

(** The order in which a set of strings is iterated is not fixed by the
    language (string hashing is randomised per process): an iteration
    order is any function that lists each set without repetition. *)
Class SetOrder := {
  iter : gset string → list string;
  iter_perm : ∀ X, iter X ≡ₚ elements X
}.

(** *** [sorted]

      A stable sort; [before x y] holds when [x] must come strictly before
      [y].  Elements that are not ordered by [before] keep their order. *)
Fixpoint insert_sorted {A} (before : A → A → bool) (x : A) (l : list A)
    : list A :=
  match l with
  | [] => [x]
  | y :: l' =>
    if before y x then y :: insert_sorted before x l' else x :: l
  end.

Definition sorted {A} (before : A → A → bool) (l : list A) : list A :=
  foldr (insert_sorted before) [] l.

(** [<] on strings: lexicographic on code points, which is the
    lexicographic order of the UTF-8 bytes. *)
Definition str_lt (x y : string) : bool := String.ltb x y.

(** *** Strings *)

Definition nl : string := String (Ascii.ascii_of_nat 10) "".

(** [s[:n]] and [s[n:]] for [0 <= n]. *)
Fixpoint take (n : nat) (s : string) : string :=
  match n, s with
  | S n, String c s' => String c (take n s')
  | _, _ => ""
  end.

Fixpoint drop (n : nat) (s : string) : string :=
  match n, s with
  | S n, String _ s' => drop n s'
  | _, _ => s
  end.

(** [s.find(sub)]: the index of the first occurrence, if any. *)
Fixpoint find (sub s : string) : option nat :=
  if String.prefix sub s then Some 0%nat
  else
    match s with
    | EmptyString => None
    | String _ s' => S <$> find sub s'
    end.

(** [s.split(sep)] for a non-empty [sep]: cut at each occurrence of
    [sep], found from left to right.  Each cut removes at least one
    character, so [String.length s] rounds suffice. *)
Fixpoint split_rounds (rounds : nat) (sep s : string) : list string :=
  match find sep s, rounds with
  | Some i, S rounds =>
    take i s :: split_rounds rounds sep (drop (i + String.length sep) s)
  | _, _ => [s]
  end.

Definition split (sep s : string) : list string :=
  split_rounds (String.length s) sep s.

(** [sep.join(l)] *)
Definition join (sep : string) (l : list string) : string :=
  String.concat sep l.

(** *** Formatting *)

(** [f"{n}"] for an int. *)
Definition str_int (n : Z) : string := pretty n.

(** [f"{n:,}"] for an int: decimal digits in groups of three. *)
Fixpoint commas_rev (k : nat) (s : string) : string :=
  match s with
  | EmptyString => ""
  | String c s' =>
    if (k =? 3)%nat then "," +:+ String c (commas_rev 1 s')
    else String c (commas_rev (S k) s')
  end.

Definition fmt_thousands (n : Z) : string :=
  (if (n <? 0)%Z then "-" else "")
  +:+ String.rev (commas_rev 0 (String.rev (pretty (Z.abs n)))).

(** Fixed-point formatting: the text that Python gives for the float
    nearest to the number.  It is a parameter of the embedding. *)
Class Format := {
  fmt_2f : Qc → string;        (* f"{x:.2f}" *)
  fmt_1f : Qc → string;        (* f"{x:.1f}" *)
  fmt_plus_1f : Qc → string    (* f"{x:+.1f}" *)
}.

End Py.

(** ** The severity markers of the legend

    Both scripts end their report with the same legend, which names the
    six markers. *)

Module Legend.
Definition significant_improvement : string := "🟢".
Definition improvement : string := "✅".
Definition neutral : string := "➖".
Definition caution : string := "🟡".
Definition warning : string := "⚠️".
Definition regression : string := "🔴".

Definition markers : list string :=
  [significant_improvement; improvement; neutral; caution; warning;
   regression].
End Legend.

(** ** [scripts/compare_benchmarks.py] *)

Module CompareBenchmarks.
Import Py.

(** The documents read by [load_benchmark_results], with the fields the
    script reads. *)
Record latency := { p95 : Z }.

Record size_result := {
  input_size : Z;
  avg_time_per_path : Z;
  latency_stats : latency;
  throughput_paths_per_sec : Qc
}.

Record bench := {
  template_name : string;
  results : list size_result
}.

Record document := {
  benchmarks : list bench;
  timestamp : option string
}.

Definition calculate_change (baseline current : number) : Qc * string :=
  if eq (real baseline) 0 then (0, "➖")
  else
    let change_pct :=
      real (mul (quotient (sub current baseline) baseline) (Int 100)) in
    let emoji :=
      if lt (Qcabs change_pct) (num 2) then "➖"
      else if lt change_pct (num (-5)) then "🟢"
      else if lt change_pct (num (-2)) then "✅"
      else if gt change_pct (num 10) then "🔴"
      else if gt change_pct (num 5) then "⚠️"
      else "🟡" in
    (change_pct, emoji).

(** The lookup dictionaries of [compare_benchmarks] (lines 71-82):
    [results[-1]] of every entry whose [results] is not empty. *)
Definition results_by_template (benchmarks : list bench)
    : gmap string size_result :=
  foldl (λ by_template bench,
           match last (results bench) with
           | Some largest => <[template_name bench := largest]> by_template
           | None => by_template
           end) ∅ benchmarks.

(** The throughput column of [compare_benchmarks] (lines 137-154). *)
Definition throughput_delta (base_throughput curr_throughput : Qc)
    : result Qc :=
  quotient ←
    truediv (sub (Float curr_throughput) (Float base_throughput))
            (Float base_throughput);
  mret (real (mul quotient (Int 100))).

Definition throughput_marker (throughput_change : Qc) : string :=
  if lt (Qcabs throughput_change) (num 2) then "➖"
  else if gt throughput_change (num 5) then "🟢"
  else if gt throughput_change (num 2) then "✅"
  else if lt throughput_change (num (-10)) then "🔴"
  else if lt throughput_change (num (-5)) then "⚠️"
  else if lt throughput_change (num (-2)) then "🟡"
  else "➖".

(** What the loop over the templates accumulates. *)
Record tally := {
  report : list string;
  regressions : list (string * Qc);
  improvements : list (string * Qc);
  neutral : list string
}.

Definition append_line (st : tally) (line : string) : tally :=
  {| report := report st ++ [line]; regressions := regressions st;
     improvements := improvements st; neutral := neutral st |}.

(** Lines 157-162. *)
Definition track (st : tally) (template_name : string) (avg_change : Qc)
    : tally :=
  if gt avg_change (num 10) then
    {| report := report st;
       regressions := regressions st ++ [(template_name, avg_change)];
       improvements := improvements st; neutral := neutral st |}
  else if lt avg_change (num (-5)) then
    {| report := report st; regressions := regressions st;
       improvements := improvements st ++ [(template_name, avg_change)];
       neutral := neutral st |}
  else
    {| report := report st; regressions := regressions st;
       improvements := improvements st;
       neutral := neutral st ++ [template_name] |}.

Definition legend : list string :=
  [ "---" +:+ nl;
    "### Legend";
    "- 🟢 Significant improvement (>5% faster)";
    "- ✅ Improvement (2-5% faster)";
    "- ➖ Neutral (<2% change)";
    "- 🟡 Caution (2-5% slower)";
    "- ⚠️ Warning (5-10% slower)";
    "- 🔴 Regression (>10% slower)" ].

Section report.
Context `{!Format}.

Definition format_duration_ns (ns : Z) : string :=
  if (ns <? 1000)%Z then str_int ns +:+ "ns"
  else if (ns <? 1000000)%Z then
    fmt_2f (num ns / num 1000) +:+ "μs"
  else if (ns <? 1000000000)%Z then
    fmt_2f (num ns / num 1000000) +:+ "ms"
  else fmt_2f (num ns / num 1000000000) +:+ "s".

Definition format_throughput (paths_per_sec : Qc) : string :=
  if ge paths_per_sec (num 1000000) then
    fmt_2f (paths_per_sec / num 1000000) +:+ "M/s"
  else if ge paths_per_sec (num 1000) then
    fmt_2f (paths_per_sec / num 1000) +:+ "K/s"
  else fmt_2f paths_per_sec +:+ "/s".

(** Lines 86-109: title, input size, timestamps, table header. *)
Definition header (baseline current : document) : list string :=
  let input_size :=
    match benchmarks current with
    | first :: _ =>
      match last (results first) with
      | Some largest => input_size largest
      | None => 0%Z
      end
    | [] => 0%Z
    end in
  [ "# 📊 Benchmark Comparison Report" +:+ nl;
    "**Input Size:** " +:+ fmt_thousands input_size +:+ " paths" +:+ nl;
    "**Baseline Timestamp:** " +:+ default "unknown" (timestamp baseline);
    "**Current Timestamp:** " +:+ default "unknown" (timestamp current)
      +:+ nl;
    "## Performance Comparison" +:+ nl;
    "| Template | Avg/Path | Change | p95 | Change | Throughput | Change |";
    "|----------|----------|--------|-----|--------|------------|--------|"
  ].

(** Lines 165-173: one row of the table. *)
Definition table_row (template_name : string) (curr : size_result)
    (avg : Qc * string) (p95_ : Qc * string)
    (throughput_change : Qc) (throughput_emoji : string) : string :=
  "| " +:+ template_name +:+ " "
  +:+ "| " +:+ format_duration_ns (avg_time_per_path curr) +:+ " "
  +:+ "| " +:+ avg.2 +:+ " " +:+ fmt_plus_1f avg.1 +:+ "% "
  +:+ "| " +:+ format_duration_ns (p95 (latency_stats curr)) +:+ " "
  +:+ "| " +:+ p95_.2 +:+ " " +:+ fmt_plus_1f p95_.1 +:+ "% "
  +:+ "| " +:+ format_throughput (throughput_paths_per_sec curr) +:+ " "
  +:+ "| " +:+ throughput_emoji +:+ " "
  +:+ fmt_plus_1f throughput_change +:+ "% |".

(** Lines 114-173: the body of [for template_name in all_templates]. *)
Definition compare_template
    (baseline_results current_results : gmap string size_result)
    (st : tally) (template_name : string) : result tally :=
  if negb (contains baseline_results template_name)
     || negb (contains current_results template_name)
  then mret st
  else
    base ← getitem baseline_results template_name;
    curr ← getitem current_results template_name;
    let avg :=
      calculate_change (Int (avg_time_per_path base))
                       (Int (avg_time_per_path curr)) in
    let p95_ :=
      calculate_change (Int (p95 (latency_stats base)))
                       (Int (p95 (latency_stats curr))) in
    throughput_change ←
      throughput_delta (throughput_paths_per_sec base)
                       (throughput_paths_per_sec curr);
    let throughput_emoji := throughput_marker throughput_change in
    let st := track st template_name avg.1 in
    mret (append_line st
            (table_row template_name curr avg p95_
                       throughput_change throughput_emoji)).

(** Lines 178-182. *)
Definition summary (all_templates : list string) (st : tally)
    : list string :=
  [ "## Summary" +:+ nl;
    "- **Total templates compared:** "
      +:+ str_int (len all_templates);
    "- **Improvements:** " +:+ str_int (len (improvements st))
      +:+ " 🟢";
    "- **Regressions:** " +:+ str_int (len (regressions st))
      +:+ " 🔴";
    "- **Neutral:** " +:+ str_int (len (neutral st)) +:+ " ➖"
      +:+ nl ].

(** Lines 185-195. *)
Definition highlights (st : tally) : list string :=
  (match regressions st with
   | [] => []
   | _ =>
     ["### ⚠️ PERFORMANCE REGRESSIONS" +:+ nl]
     ++ map (λ tc : string * Qc,
               "- **" +:+ tc.1 +:+ "**: " +:+ fmt_plus_1f tc.2
               +:+ "% slower")
            (sorted (λ x y, gt x.2 y.2) (regressions st))
     ++ [""]
   end)
  ++
  (match improvements st with
   | [] => []
   | _ =>
     ["### ✨ Performance Improvements" +:+ nl]
     ++ map (λ tc : string * Qc,
               "- **" +:+ tc.1 +:+ "**: " +:+ fmt_1f (Qcabs tc.2)
               +:+ "% faster")
            (sorted (λ x y, lt x.2 y.2) (improvements st))
     ++ [""]
   end).

Context `{!SetOrder}.

Definition compare_benchmarks (baseline current : document)
    : result string :=
  let baseline_results := results_by_template (benchmarks baseline) in
  let current_results := results_by_template (benchmarks current) in
  let all_templates :=
    sorted str_lt (iter (dom baseline_results ∪ dom current_results)) in
  st ← for_each (compare_template baseline_results current_results)
         all_templates
         {| report := header baseline current;
            regressions := []; improvements := []; neutral := [] |};
  mret (join nl (report st ++ [""]
                 ++ summary all_templates st
                 ++ highlights st
                 ++ legend)).

End report.

End CompareBenchmarks.

(** ** [scripts/compare_template_results.py] *)

Module CompareTemplateResults.
Import Py.

(** The documents read by [load_hyperfine_json], with the fields the
    script reads. *)
Record timing := {
  command : string;
  mean : Qc;
  min : Qc;
  max : Qc;
  stddev : Qc
}.

Record document := {
  results : list timing
}.

Definition extract_template_from_command (command : string) : string :=
  let parts := split "--template " command in
  if (length parts <? 2)%nat then "unknown"
  else
    let template_part := split " " (parts !!! 1%nat) !!! 0%nat in
    template_part.

Definition calculate_change (baseline current : number) : Qc * string :=
  if eq (real baseline) 0 then (0, "➖")
  else
    let change_pct :=
      real (mul (quotient (sub current baseline) baseline) (Int 100)) in
    let emoji :=
      if lt (Qcabs change_pct) (num 2) then "➖"
      else if lt change_pct (num (-5)) then "🟢"
      else if lt change_pct (num (-2)) then "✅"
      else if gt change_pct (num 10) then "🔴"
      else if gt change_pct (num 5) then "⚠️"
      else "🟡" in
    (change_pct, emoji).

(** The lookup dictionaries of [generate_comparison_report] (lines
    100-108): a later result replaces an earlier one of the same
    template. *)
Definition by_template (results : list timing) : gmap string timing :=
  foldl (λ by_template result,
           <[extract_template_from_command (command result) := result]>
             by_template) ∅ results.

(** What the loop over the templates accumulates. *)
Record tally := {
  lines : list string;
  regressions : list (string * Qc);
  improvements : list (string * Qc);
  neutral : list string
}.

Definition append_line (st : tally) (line : string) : tally :=
  {| lines := lines st ++ [line]; regressions := regressions st;
     improvements := improvements st; neutral := neutral st |}.

(** Lines 156-161. *)
Definition track (st : tally) (template : string) (change_pct : Qc)
    : tally :=
  if gt change_pct (num 10) then
    {| lines := lines st;
       regressions := regressions st ++ [(template, change_pct)];
       improvements := improvements st; neutral := neutral st |}
  else if lt change_pct (num (-5)) then
    {| lines := lines st; regressions := regressions st;
       improvements := improvements st ++ [(template, change_pct)];
       neutral := neutral st |}
  else
    {| lines := lines st; regressions := regressions st;
       improvements := improvements st;
       neutral := neutral st ++ [template] |}.

Definition no_common_templates : string :=
  "Error: No common templates found between baseline and current results.".

(** Lines 222-241. *)
Definition closing : list string :=
  [ "## Statistical Notes" +:+ nl;
    "All measurements include statistical confidence from hyperfine:";
    "- **Mean**: Average execution time across all runs";
    "- **Min/Max**: Fastest and slowest runs observed";
    "- **StdDev**: Standard deviation (measure of consistency)";
    "- **High variance**: Templates with coefficient of variation >10%"
      +:+ nl;
    "---" +:+ nl;
    "### Legend";
    "- 🟢 Significant improvement (>5% faster)";
    "- ✅ Improvement (2-5% faster)";
    "- ➖ Neutral (<2% change)";
    "- 🟡 Caution (2-5% slower)";
    "- ⚠️ Warning (5-10% slower)";
    "- 🔴 Regression (>10% slower)" ].

Section report.
Context `{!Format}.

Definition format_time_ms (seconds : Qc) : string :=
  let ms := mul (Float seconds) (Int 1000) in
  if lt (real ms) (num 1) then
    fmt_2f (real (mul ms (Int 1000))) +:+ "μs"
  else if lt (real ms) (num 1000) then fmt_2f (real ms) +:+ "ms"
  else fmt_2f (real (quotient ms (Int 1000))) +:+ "s".

(** Lines 120-139: title, names, input size, table header. *)
Definition header (baseline_name current_name : string)
    (input_size : option Z) (common_templates : list string)
    : list string :=
  [ "# 📊 Per-Template Benchmark Analysis" +:+ nl;
    "**Baseline:** `" +:+ baseline_name +:+ "`";
    "**Current:** `" +:+ current_name +:+ "`" ]
  ++ (match input_size with
      | Some n =>
        if (n =? 0)%Z then []
        else ["**Input size:** " +:+ fmt_thousands n +:+ " paths per run"]
      | None => []
      end)
  ++ [ "**Templates analyzed:** " +:+ str_int (len common_templates)
         +:+ nl;
       "## Performance Comparison" +:+ nl;
       "| Template | Baseline Mean | Current Mean | Change | Min | Max | StdDev | Notes |";
       "|----------|---------------|--------------|--------|-----|-----|--------|-------|"
     ].

(** Lines 163-187: the notes and the text of one row of the table. *)
Definition table_row (template : string) (baseline current : timing)
    (change : Qc * string) : string :=
  let cv :=
    if gt (mean current) 0 then
      real (mul (quotient (Float (stddev current)) (Float (mean current)))
                (Int 100))
    else 0 in
  let notes : list string :=
    if gt cv (num 10) then ["high variance"] else [] in
  let notes_str :=
    match notes with
    | [] => "—"
    | _ => join ", " notes
    end in
  "| `" +:+ template +:+ "` "
  +:+ "| " +:+ format_time_ms (mean baseline) +:+ " "
  +:+ "| " +:+ format_time_ms (mean current) +:+ " "
  +:+ "| " +:+ change.2 +:+ " " +:+ fmt_plus_1f change.1 +:+ "% "
  +:+ "| " +:+ format_time_ms (min current) +:+ " "
  +:+ "| " +:+ format_time_ms (max current) +:+ " "
  +:+ "| ±" +:+ format_time_ms (stddev current) +:+ " "
  +:+ "| " +:+ notes_str +:+ " |".

(** Lines 141-187: the body of [for template in common_templates]. *)
Definition compare_template
    (baseline_by_template current_by_template : gmap string timing)
    (st : tally) (template : string) : result tally :=
  baseline ← getitem baseline_by_template template;
  current ← getitem current_by_template template;
  let change :=
    calculate_change (Float (mean baseline)) (Float (mean current)) in
  let st := track st template change.1 in
  mret (append_line st (table_row template baseline current change)).

(** Lines 192-196. *)
Definition summary (common_templates : list string) (st : tally)
    : list string :=
  [ "## Summary" +:+ nl;
    "- **Total templates:** " +:+ str_int (len common_templates);
    "- **Improvements:** " +:+ str_int (len (improvements st)) +:+ " 🟢";
    "- **Regressions:** " +:+ str_int (len (regressions st)) +:+ " 🔴";
    "- **Neutral:** " +:+ str_int (len (neutral st)) +:+ " ➖" +:+ nl ].

(** Lines 199-219. *)
Definition means
    (baseline_by_template current_by_template : gmap string timing)
    (template : string) : result string :=
  baseline ← getitem baseline_by_template template;
  current ← getitem current_by_template template;
  mret ("(" +:+ format_time_ms (mean baseline) +:+ " → "
        +:+ format_time_ms (mean current) +:+ ")").

Definition highlights
    (baseline_by_template current_by_template : gmap string timing)
    (st : tally) : result (list string) :=
  slower ←
    match regressions st with
    | [] => mret []
    | _ =>
      items ←
        mapM (λ tc : string * Qc,
                times ← means baseline_by_template current_by_template tc.1;
                mret ("- **`" +:+ tc.1 +:+ "`**: " +:+ fmt_plus_1f tc.2
                      +:+ "% slower " +:+ times))
             (sorted (λ x y, gt x.2 y.2) (regressions st));
      mret (["### ⚠️ Performance Regressions" +:+ nl] ++ items ++ [""])
    end;
  faster ←
    match improvements st with
    | [] => mret []
    | _ =>
      items ←
        mapM (λ tc : string * Qc,
                times ← means baseline_by_template current_by_template tc.1;
                mret ("- **`" +:+ tc.1 +:+ "`**: " +:+ fmt_1f (Qcabs tc.2)
                      +:+ "% faster " +:+ times))
             (sorted (λ x y, lt x.2 y.2) (improvements st));
      mret (["### ✨ Performance Improvements" +:+ nl] ++ items ++ [""])
    end;
  mret (slower ++ faster).

Context `{!SetOrder}.

Definition generate_comparison_report (baseline_data current_data : document)
    (baseline_name current_name : string) (input_size : option Z)
    : result string :=
  let baseline_by_template := by_template (results baseline_data) in
  let current_by_template := by_template (results current_data) in
  let common_templates :=
    sorted str_lt
           (iter (dom baseline_by_template ∩ dom current_by_template)) in
  match common_templates with
  | [] => mret no_common_templates
  | _ =>
    st ← for_each (compare_template baseline_by_template current_by_template)
           common_templates
           {| lines :=
                header baseline_name current_name input_size
                       common_templates;
              regressions := []; improvements := []; neutral := [] |};
    changes ← highlights baseline_by_template current_by_template st;
    mret (join nl (lines st ++ [""]
                   ++ summary common_templates st
                   ++ changes
                   ++ closing))
  end.

End report.

End CompareTemplateResults.

(** ** Instances to run the embedding

    [Decimal.format] rounds the value of the nearest float to the
    nearest decimal, ties to even; [Elements.order] iterates a set in the
    order of stdpp's [elements]. *)

Module Decimal.
Import Py.

Definition round_half_even (q : Q) : Z :=
  let f := Qfloor q in
  match Qcompare (q - inject_Z f) (1 # 2) with
  | Lt => f
  | Gt => (f + 1)%Z
  | Eq => if Z.even f then f else (f + 1)%Z
  end.

Fixpoint zero_pad (missing : nat) (s : string) : string :=
  match missing with
  | O => s
  | S missing => "0" +:+ zero_pad missing s
  end.

Definition fixed (digits : nat) (x : Qc) : string :=
  let scale := (10 ^ Z.of_nat digits)%Z in
  let n := round_half_even (Qabs x * inject_Z scale) in
  let fraction := pretty (n mod scale)%Z in
  pretty (n / scale)%Z +:+ "."
  +:+ zero_pad (digits - String.length fraction) fraction.

Definition sign (plus : bool) (x : Qc) : string :=
  if lt x 0 then "-" else if plus then "+" else "".

Definition format : Format :=
  {| fmt_2f x := sign false (binary64 x) +:+ fixed 2 (binary64 x);
     fmt_1f x := sign false (binary64 x) +:+ fixed 1 (binary64 x);
     fmt_plus_1f x := sign true (binary64 x) +:+ fixed 1 (binary64 x) |}.

End Decimal.

Module Elements.

Definition order : Py.SetOrder :=
  {| Py.iter := elements; Py.iter_perm := λ X, reflexivity _ |}.

Definition reversed : Py.SetOrder :=
  {| Py.iter := λ X, reverse (elements X);
     Py.iter_perm := λ X, reverse_Permutation _ |}.

End Elements.

(** * Properties *)

(** ** Numbers: from the boolean tests to linear arithmetic *)

Lemma lt_true x y : Py.lt x y = true ↔ x < y.
Proof. apply bool_decide_eq_true. Qed.

Lemma lt_false x y : Py.lt x y = false ↔ y ≤ x.
Proof.
  unfold Py.lt. rewrite bool_decide_eq_false. split.
  - apply Qcnot_lt_le.
  - apply Qcle_not_lt.
Qed.

Lemma gt_true x y : Py.gt x y = true ↔ y < x.
Proof. apply bool_decide_eq_true. Qed.

Lemma gt_false x y : Py.gt x y = false ↔ x ≤ y.
Proof. apply (lt_false y x). Qed.

Lemma eq_true x y : Py.eq x y = true ↔ x = y.
Proof. apply bool_decide_eq_true. Qed.

Lemma eq_false x y : Py.eq x y = false ↔ x ≠ y.
Proof. apply bool_decide_eq_false. Qed.

Lemma Qcabs_lt x t : Qcabs x < t ↔ (- this t < this x)%Q ∧ (this x < this t)%Q.
Proof. unfold Qclt. cbn. apply Qabs_Qlt_condition. Qed.

Lemma Qcabs_ge x t : t ≤ Qcabs x ↔ ¬ ((- this t < this x)%Q ∧ (this x < this t)%Q).
Proof.
  rewrite <- Qcabs_lt. split; [apply Qcle_not_lt | apply Qcnot_lt_le].
Qed.

Lemma Qc_eq_this (x y : Qc) : x = y ↔ (this x == this y)%Q.
Proof.
  split; [intros ->; reflexivity|]. apply Qc_is_canon.
Qed.

(** Turn the tests met on a path through a cascade into inequalities
    between rationals, for [lra]. *)
Ltac to_Q :=
  rewrite ?lt_true, ?lt_false, ?gt_true, ?gt_false, ?eq_true, ?eq_false in *;
  rewrite ?Qcabs_lt, ?Qcabs_ge, ?Qc_eq_this in *;
  unfold Qclt, Qcle, Py.num, Qc_of_Z, inject_Z in *; cbn [this] in *.

(** ** The delta classifier *)

Lemma calculate_change_same :
  CompareTemplateResults.calculate_change = CompareBenchmarks.calculate_change.
Proof. reflexivity. Qed.

(** The markers of the legend are pairwise distinct. *)
Lemma legend_markers_distinct : NoDup Legend.markers.
Proof. apply (bool_decide_unpack _). vm_compute. reflexivity. Qed.

(** The change that [calculate_change] and the throughput column compute
    for a non-zero baseline: [((current - baseline) / baseline) * 100],
    each operation rounded as Python rounds it. *)
Definition change_pct (baseline current : Py.number) : Qc :=
  Py.real (Py.mul (Py.quotient (Py.sub current baseline) baseline)
                  (Py.Int 100)).

(** The returned change and the marker of a non-zero baseline: the
    cascade of [calculate_change], one interval per branch.  The last
    branch is taken on [2 <= pct <= 5] and at [pct = -2]. *)
Lemma calculate_change_cascade (b c : Py.number) :
  Py.real b ≠ 0 →
  let p := (CompareBenchmarks.calculate_change b c).1 in
  let e := (CompareBenchmarks.calculate_change b c).2 in
  p = change_pct b c
  ∧ (Qcabs p < Py.num 2 → e = Legend.neutral)
  ∧ (p < Py.num (-5) → e = Legend.significant_improvement)
  ∧ (Py.num (-5) ≤ p → p < Py.num (-2) → e = Legend.improvement)
  ∧ (Py.num 10 < p → e = Legend.regression)
  ∧ (Py.num 5 < p → p ≤ Py.num 10 → e = Legend.warning)
  ∧ (Py.num 2 ≤ p → p ≤ Py.num 5 → e = Legend.caution)
  ∧ (p = Py.num (-2) → e = Legend.caution)
  ∧ (e = Legend.caution → p = Py.num (-2) ∨ (Py.num 2 ≤ p ∧ p ≤ Py.num 5)).
Proof.
  intros Hb p e. subst p e. unfold CompareBenchmarks.calculate_change.
  apply eq_false in Hb. rewrite Hb. cbn [fst snd].
  fold (change_pct b c). set (p := change_pct b c). clearbody p.
  split; [reflexivity|].
  destruct (Py.lt (Qcabs p) _) eqn:H1;
    [|destruct (Py.lt p (Py.num (-5))) eqn:H2;
      [|destruct (Py.lt p (Py.num (-2))) eqn:H3;
        [|destruct (Py.gt p (Py.num 10)) eqn:H4;
          [|destruct (Py.gt p (Py.num 5)) eqn:H5]]]];
    repeat split; intros; try reflexivity; try discriminate.
  all: try (exfalso; to_Q; lra).
  all: to_Q; lra.
Qed.

Lemma num_nonzero (n : Z) : n ≠ 0%Z → Py.num n ≠ 0.
Proof.
  intros Hn H. apply Qc_eq_this in H. unfold Py.num, Qc_of_Z in H.
  change (n * 1 = 0 * 1)%Z in H. lia.
Qed.

Lemma binary64_zero : Py.binary64 0 = 0.
Proof. apply (bool_decide_unpack _). vm_compute. reflexivity. Qed.

(** The rounding at known values: 0.1 is 3602879701896397 / 2^55; small
    integers are floats; above 2^53 an odd integer is rounded to a
    multiple of 2, a tie going to the even significand; in the subnormal
    range the step is 2^-1074. *)
Lemma binary64_examples :
  this (Py.binary64 (Py.num 1 / Py.num 10))
  = (3602879701896397 # 36028797018963968)%Q
  ∧ Py.binary64 (Py.num 100) = Py.num 100
  ∧ Py.binary64 (Py.num (2 ^ 53 + 1)) = Py.num (2 ^ 53)
  ∧ Py.binary64 (Py.num (2 ^ 53 + 3)) = Py.num (2 ^ 53 + 4)
  ∧ Py.binary64 (Py.num (- (2 ^ 53 + 3))) = Py.num (- (2 ^ 53 + 4))
  ∧ Py.binary64 (Py.num 1 / Py.num (2 ^ 1075)) = 0
  ∧ Py.binary64 (Py.num 3 / Py.num (2 ^ 1075))
    = Py.num 1 / Py.num (2 ^ 1073).
Proof.
  split; [vm_compute; reflexivity|].
  repeat split; apply (bool_decide_unpack _); vm_compute; reflexivity.
Qed.

(** An unchanged value: the difference is zero, and so are the quotient
    and the product. *)
Lemma change_pct_unchanged (b : Py.number) : change_pct b b = 0.
Proof.
  unfold change_pct.
  assert (∀ d e : Qc, Py.binary64 (Py.binary64 (0 / d) * e) = 0) as Hzero.
  { intros d e. unfold Qcdiv. by rewrite Qcmult_0_l, binary64_zero,
      Qcmult_0_l, binary64_zero. }
  destruct b as [n|x]; unfold Py.sub, Py.quotient, Py.mul;
    cbn [Py.to_float Py.real].
  - rewrite Z.sub_diag. apply Hzero.
  - replace (x - x) with (Q2Qc 0) by ring. rewrite binary64_zero.
    apply Hzero.
Qed.

Lemma unchanged_is_neutral (b : Py.number) :
  Py.real b ≠ 0 →
  CompareBenchmarks.calculate_change b b = (0, Legend.neutral).
Proof.
  intros Hb. unfold CompareBenchmarks.calculate_change.
  apply eq_false in Hb. rewrite Hb.
  fold (change_pct b b). rewrite change_pct_unchanged. reflexivity.
Qed.

(** C1, as amended.  With a zero baseline, int or float, the classifier
    returns the change 0 and the marker "➖" for every current value;
    this is the neutral marker of the legend, the one an unchanged
    non-zero baseline gets: the scripts have no separate marker for a
    zero baseline. *)
Theorem calculate_change_zero_baseline (z c : Py.number) :
  Py.real z = 0 →
  CompareBenchmarks.calculate_change z c = (0, Legend.neutral)
  ∧ CompareTemplateResults.calculate_change z c = (0, Legend.neutral)
  ∧ ∀ b, Py.real b ≠ 0 →
      CompareBenchmarks.calculate_change b b
      = CompareBenchmarks.calculate_change z c
      ∧ CompareTemplateResults.calculate_change b b
        = CompareTemplateResults.calculate_change z c.
Proof.
  intros Hzero. rewrite calculate_change_same.
  assert (CompareBenchmarks.calculate_change z c = (0, Legend.neutral))
    as Hz.
  { unfold CompareBenchmarks.calculate_change.
    apply eq_true in Hzero. by rewrite Hzero. }
  repeat split; try assumption;
    rewrite Hz; by apply unchanged_is_neutral.
Qed.

Lemma calculate_change_zero_baseline_witness :
  Py.real (Py.Int 0) = 0
  ∧ Py.real (Py.Int 100) ≠ 0
  ∧ CompareBenchmarks.calculate_change (Py.Int 0) (Py.Int 7)
    = (0, Legend.neutral)
  ∧ CompareBenchmarks.calculate_change (Py.Int 100) (Py.Int 100)
    = CompareBenchmarks.calculate_change (Py.Int 0) (Py.Int 7).
Proof.
  assert (Py.real (Py.Int 0) = 0) as H0 by (apply Qc_is_canon; reflexivity).
  assert (Py.real (Py.Int 100) ≠ 0) as H by (apply num_nonzero; lia).
  destruct (calculate_change_zero_baseline (Py.Int 0) (Py.Int 7) H0)
    as (Hzero & _ & Hsame).
  split; [exact H0|]. split; [exact H|]. split; [exact Hzero|].
  exact (proj1 (Hsame (Py.Int 100) H)).
Defined.

(** C1, counterexample.  The marker returned for the baseline 0 and the
    current value 7 is the neutral marker, and the whole result is the
    one of the unchanged pair (100, 100); so it is for the floats 0.0,
    7.0 and 100.0. *)
Lemma zero_baseline_marker_is_neutral :
  (CompareBenchmarks.calculate_change (Py.Int 0) (Py.Int 7)).2
  = Legend.neutral
  ∧ CompareBenchmarks.calculate_change (Py.Int 0) (Py.Int 7)
    = CompareBenchmarks.calculate_change (Py.Int 100) (Py.Int 100)
  ∧ (CompareTemplateResults.calculate_change
       (Py.Float 0) (Py.Float (Py.num 7))).2
    = Legend.neutral
  ∧ CompareTemplateResults.calculate_change
      (Py.Float 0) (Py.Float (Py.num 7))
    = CompareTemplateResults.calculate_change
        (Py.Float (Py.num 100)) (Py.Float (Py.num 100)).
Proof.
  repeat split; apply (bool_decide_unpack _); vm_compute; reflexivity.
Qed.

(** The buckets of a lower-is-better metric, for the change [p] and the
    marker [e].  The neutral band excludes every other condition, so the
    order of the tests shows in the closed ends of the intervals only.
    The marker at [p = -2] is left open. *)
Definition lower_is_better_buckets (p : Qc) (e : string) : Prop :=
  (Qcabs p < Py.num 2 → e = Legend.neutral)
  ∧ (p < Py.num (-5) → e = Legend.significant_improvement)
  ∧ (Py.num (-5) ≤ p → p < Py.num (-2) → e = Legend.improvement)
  ∧ (Py.num 10 < p → e = Legend.regression)
  ∧ (Py.num 5 < p → p ≤ Py.num 10 → e = Legend.warning)
  ∧ (Py.num 2 ≤ p → p ≤ Py.num 5 → e = Legend.caution)
  ∧ (p ≠ Py.num (-2) → e = Legend.caution → Py.num 2 ≤ p ∧ p ≤ Py.num 5).

(** C2, as amended.  For a non-zero baseline both classifiers return
    the binary64 result of [((c - b) / b) * 100], and the marker of the
    bucket of that returned change: neutral below 2 in absolute value,
    significant improvement below -5, improvement from -5 (included) to
    -2, regression above 10, warning above 5 up to 10, and caution from 2
    (included) to 5; away from -2, caution only there. *)
Theorem calculate_change_buckets (b c : Py.number) :
  Py.real b ≠ 0 →
  (CompareBenchmarks.calculate_change b c).1 = change_pct b c
  ∧ lower_is_better_buckets
      (CompareBenchmarks.calculate_change b c).1
      (CompareBenchmarks.calculate_change b c).2
  ∧ (CompareTemplateResults.calculate_change b c).1 = change_pct b c
  ∧ lower_is_better_buckets
      (CompareTemplateResults.calculate_change b c).1
      (CompareTemplateResults.calculate_change b c).2.
Proof.
  intros Hb. rewrite calculate_change_same.
  destruct (calculate_change_cascade b c Hb)
    as (Hp & H1 & H2 & H3 & H4 & H5 & H6 & _ & H8).
  assert (lower_is_better_buckets
            (CompareBenchmarks.calculate_change b c).1
            (CompareBenchmarks.calculate_change b c).2) as Hl.
  { repeat split; try assumption;
      destruct (H8 ltac:(assumption)) as [?|[? ?]]; done. }
  done.
Qed.

Lemma calculate_change_buckets_witness :
  Py.real (Py.Int 100) ≠ 0
  ∧ (CompareBenchmarks.calculate_change (Py.Int 100) (Py.Int 95)).1
    = change_pct (Py.Int 100) (Py.Int 95)
  ∧ lower_is_better_buckets
      (CompareBenchmarks.calculate_change (Py.Int 100) (Py.Int 95)).1
      (CompareBenchmarks.calculate_change (Py.Int 100) (Py.Int 95)).2.
Proof.
  assert (Py.real (Py.Int 100) ≠ 0) as H by (apply num_nonzero; lia).
  split; [exact H|].
  destruct (calculate_change_buckets (Py.Int 100) (Py.Int 95) H)
    as (H1 & H2 & _).
  split; [exact H1 | exact H2].
Defined.

(** C2, counterexample.  From 100 to 102, as ints and as floats, the
    returned change is exactly 2, which is not above 2, and the marker is
    the caution marker. *)
Lemma caution_at_exactly_two :
  CompareBenchmarks.calculate_change (Py.Int 100) (Py.Int 102)
  = (Py.num 2, Legend.caution)
  ∧ CompareTemplateResults.calculate_change
      (Py.Float (Py.num 100)) (Py.Float (Py.num 102))
    = (Py.num 2, Legend.caution)
  ∧ ¬ (Py.num 2 < Py.num 2).
Proof.
  split; [|split]; [| |intros H; exact (Qclt_not_eq _ _ H eq_refl)];
    apply (bool_decide_unpack _); vm_compute; reflexivity.
Qed.

(** The returned change is the rounded one, not the quotient of the two
    values.  From 0.007 to 0.0077 (the floats nearest to these decimals)
    the quotient of the two floats is above 10 and the returned change is
    exactly 10, marked as a warning; from 10^19 to 10^19 + 2 * 10^17 - 1
    the quotient is below 2 and the returned change is exactly 2, marked
    with caution. *)
Lemma calculate_change_rounds :
  let b := Py.binary64 (Py.num 7 / Py.num 1000) in
  let c := Py.binary64 (Py.num 77 / Py.num 10000) in
  CompareTemplateResults.calculate_change (Py.Float b) (Py.Float c)
  = (Py.num 10, Legend.warning)
  ∧ Py.num 10 < (c - b) / b * Py.num 100
  ∧ CompareBenchmarks.calculate_change
      (Py.Int (10 ^ 19)) (Py.Int (10 ^ 19 + 2 * 10 ^ 17 - 1))
    = (Py.num 2, Legend.caution)
  ∧ (Py.num (10 ^ 19 + 2 * 10 ^ 17 - 1) - Py.num (10 ^ 19))
    / Py.num (10 ^ 19) * Py.num 100 < Py.num 2.
Proof.
  repeat split; try (apply (bool_decide_unpack _); vm_compute; reflexivity);
    vm_compute; reflexivity.
Qed.

(** The buckets of the throughput, a higher-is-better metric. *)
Definition higher_is_better_buckets (p : Qc) (e : string) : Prop :=
  (Qcabs p < Py.num 2 → e = Legend.neutral)
  ∧ (Py.num 5 < p → e = Legend.significant_improvement)
  ∧ (Py.num 2 < p → p ≤ Py.num 5 → e = Legend.improvement)
  ∧ (p < Py.num (-10) → e = Legend.regression)
  ∧ (Py.num (-10) ≤ p → p < Py.num (-5) → e = Legend.warning)
  ∧ (Py.num (-5) ≤ p → p < Py.num (-2) → e = Legend.caution).

(** The cascade of the throughput column, at any value. *)
Lemma throughput_cascade (p : Qc) :
  higher_is_better_buckets p (CompareBenchmarks.throughput_marker p).
Proof.
  unfold CompareBenchmarks.throughput_marker.
  destruct (Py.lt (Qcabs p) _) eqn:H1;
    [|destruct (Py.gt p (Py.num 5)) eqn:H2;
      [|destruct (Py.gt p (Py.num 2)) eqn:H3;
        [|destruct (Py.lt p (Py.num (-10))) eqn:H4;
          [|destruct (Py.lt p (Py.num (-5))) eqn:H5;
            [|destruct (Py.lt p (Py.num (-2))) eqn:H6]]]]];
    repeat split; intros; try reflexivity;
    exfalso; to_Q; lra.
Qed.

(** C3.  For a non-zero baseline the throughput change is computed, as
    the binary64 result of [((curr - base) / base) * 100], and its marker
    follows the inverted buckets on that computed change: neutral below 2
    in absolute value, significant improvement above 5, improvement above
    2 up to 5, regression below -10, warning below -5 down to -10,
    caution from -5 (included) to -2. *)
Theorem throughput_buckets (base curr : Qc) :
  base ≠ 0 →
  ∃ p : Qc,
    CompareBenchmarks.throughput_delta base curr = Py.Return p
    ∧ p = change_pct (Py.Float base) (Py.Float curr)
    ∧ higher_is_better_buckets p (CompareBenchmarks.throughput_marker p).
Proof.
  intros Hb. exists (change_pct (Py.Float base) (Py.Float curr)).
  split; [|split; [reflexivity|apply throughput_cascade]].
  unfold CompareBenchmarks.throughput_delta, Py.truediv.
  apply eq_false in Hb. cbn [Py.real]. rewrite Hb. reflexivity.
Qed.

Lemma throughput_buckets_witness :
  Py.num 500 ≠ 0
  ∧ ∃ p : Qc,
      CompareBenchmarks.throughput_delta (Py.num 500) (Py.num 450)
      = Py.Return p
      ∧ p = change_pct (Py.Float (Py.num 500)) (Py.Float (Py.num 450))
      ∧ higher_is_better_buckets p (CompareBenchmarks.throughput_marker p).
Proof.
  assert (Py.num 500 ≠ 0) as H by (apply num_nonzero; lia).
  split; [exact H|].
  exact (throughput_buckets (Py.num 500) (Py.num 450) H).
Defined.

(** The throughput change too is the rounded one: from 0.007 to 0.0063
    the quotient of the two floats is below -10 and the computed change
    is exactly -10, marked as a warning. *)
Lemma throughput_delta_rounds :
  let base := Py.binary64 (Py.num 7 / Py.num 1000) in
  let curr := Py.binary64 (Py.num 63 / Py.num 10000) in
  CompareBenchmarks.throughput_delta base curr = Py.Return (Py.num (-10))
  ∧ CompareBenchmarks.throughput_marker (Py.num (-10)) = Legend.warning
  ∧ (curr - base) / base * Py.num 100 < Py.num (-10).
Proof.
  repeat split; [|vm_compute; reflexivity..].
  vm_compute. f_equal. apply Qc_is_canon. reflexivity.
Qed.

(** ** [sorted] *)

Section sorted.
Context {A : Type} (before : A → A → bool).

Lemma insert_sorted_perm (x : A) (l : list A) :
  Py.insert_sorted before x l ≡ₚ x :: l.
Proof.
  induction l as [|y l IH]; cbn; [done|].
  destruct (before y x); [|done].
  rewrite IH. apply Permutation_swap.
Qed.

Lemma sorted_perm (l : list A) : Py.sorted before l ≡ₚ l.
Proof.
  induction l as [|x l IH]; cbn; [done|].
  fold (Py.sorted before l). by rewrite insert_sorted_perm, IH.
Qed.

Lemma sorted_length (l : list A) : length (Py.sorted before l) = length l.
Proof. apply Permutation_length, sorted_perm. Qed.

End sorted.

Lemma str_lt_le (x y : string) : Py.str_lt x y = true → String.le x y.
Proof.
  unfold Py.str_lt, String.ltb, String.le, String.leb.
  by destruct (String.compare x y).
Qed.

Lemma str_ge_le (x y : string) : Py.str_lt y x = false → String.le x y.
Proof.
  unfold Py.str_lt, String.ltb, String.le, String.leb.
  rewrite (String.compare_antisym y x).
  by destruct (String.compare x y).
Qed.

Lemma str_lt_iff (x y : string) :
  Py.str_lt x y = true ↔ String.le x y ∧ x ≠ y.
Proof.
  unfold Py.str_lt, String.ltb, String.le, String.leb.
  destruct (String.compare x y) eqn:Hc; split; try done.
  - intros [_ []]. by apply String.compare_eq_iff.
  - intros _. split; [done|]. intros ->.
    pose proof (String.compare_antisym y y) as Ha.
    rewrite Hc in Ha. discriminate.
  - by intros [[] _].
Qed.

Lemma insert_sorted_Sorted (x : string) (l : list string) :
  Sorted String.le l → Sorted String.le (Py.insert_sorted Py.str_lt x l).
Proof.
  induction 1 as [|y l Hl IH Hy]; cbn; [by repeat constructor|].
  destruct (Py.str_lt y x) eqn:Hyx.
  - constructor; [done|].
    destruct Hy as [|z l Hz]; cbn in *.
    + constructor. by apply str_lt_le.
    + destruct (Py.str_lt z x); constructor; [done|by apply str_lt_le].
  - repeat constructor; [done..|by apply str_ge_le].
Qed.

Lemma sorted_Sorted (l : list string) :
  Sorted String.le (Py.sorted Py.str_lt l).
Proof.
  induction l as [|x l IH]; cbn; [constructor|].
  by apply insert_sorted_Sorted.
Qed.

(** The sorted list of a set of names does not depend on the order in
    which the set is listed. *)
Lemma sorted_unique (l1 l2 : list string) :
  l1 ≡ₚ l2 → Py.sorted Py.str_lt l1 = Py.sorted Py.str_lt l2.
Proof.
  intros Hp. apply (Sorted_unique String.le); [apply sorted_Sorted..|].
  by rewrite !sorted_perm.
Qed.

Lemma sorted_iter `{!Py.SetOrder} (X : gset string) :
  Py.sorted Py.str_lt (Py.iter X) = Py.sorted Py.str_lt (elements X).
Proof. apply sorted_unique, Py.iter_perm. Qed.

(** Strictly increasing lists of names. *)
Definition increasing (names : list string) : Prop :=
  StronglySorted (λ x y, Py.str_lt x y = true) names.

Lemma Sorted_increasing (l : list string) :
  Sorted String.le l → NoDup l → increasing l.
Proof.
  intros Hs%Sorted_StronglySorted; [|apply _].
  induction Hs as [|x l Hl IH Hx]; intros Hnd; [constructor|].
  apply NoDup_cons in Hnd as [Hx' Hnd].
  constructor; [by apply IH|].
  apply Forall_forall. intros y Hy. apply str_lt_iff. split.
  - by eapply Forall_forall in Hx.
  - by intros ->.
Qed.

Lemma sorted_elements_increasing (X : gset string) :
  increasing (Py.sorted Py.str_lt (elements X)).
Proof.
  apply Sorted_increasing; [apply sorted_Sorted|].
  rewrite sorted_perm. apply NoDup_elements.
Qed.

Lemma elem_of_sorted_elements (X : gset string) (x : string) :
  x ∈ Py.sorted Py.str_lt (elements X) ↔ x ∈ X.
Proof. by rewrite sorted_perm, elem_of_elements. Qed.

(** Keeping the members of [Y] in the sorted listing of [X] gives the
    sorted listing of the intersection. *)
Lemma filter_sorted_elements (X Y : gset string) :
  filter (.∈ Y) (Py.sorted Py.str_lt (elements X))
  = Py.sorted Py.str_lt (elements (X ∩ Y)).
Proof.
  apply (Sorted_unique String.le).
  - apply StronglySorted_Sorted.
    assert (StronglySorted String.le (Py.sorted Py.str_lt (elements X)))
      as Hs by (apply Sorted_StronglySorted; [apply _|apply sorted_Sorted]).
    induction Hs as [|x l Hl IH Hx]; [constructor|].
    rewrite filter_cons. case_decide; [|done].
    constructor; [done|]. apply Forall_forall.
    intros z [_ Hz]%list_elem_of_filter. by eapply Forall_forall in Hx.
  - apply sorted_Sorted.
  - apply NoDup_Permutation.
    + apply NoDup_filter. rewrite sorted_perm. apply NoDup_elements.
    + rewrite sorted_perm. apply NoDup_elements.
    + intros x. rewrite list_elem_of_filter, !elem_of_sorted_elements.
      rewrite elem_of_intersection. tauto.
Qed.

(** ** The report of [compare_benchmarks] *)

Module BenchmarksFacts.
Import Py CompareBenchmarks.

(** A name that both dictionaries hold, with its two records. *)
Definition item : Type := string * size_result * size_result.

Definition name_of (j : item) : string := j.1.1.

(** The names of [names] that both dictionaries hold, in the order of
    [names]. *)
Definition joined (baseline_results current_results : gmap string size_result)
    (names : list string) : list item :=
  omap (λ name,
          base ← baseline_results !! name;
          curr ← current_results !! name;
          Some (name, base, curr)) names.

Definition zero_throughput (j : item) : bool :=
  eq (throughput_paths_per_sec j.1.2) 0.

Section rows.
Context `{!Format}.

(** What one pass of the loop body does for a joined name whose baseline
    throughput is not zero: the row it appends, and the new tally. *)
Definition row (j : item) : string :=
  let '(name, base, curr) := j in
  let throughput_change :=
    change_pct (Float (throughput_paths_per_sec base))
               (Float (throughput_paths_per_sec curr)) in
  table_row name curr
    (calculate_change (Int (avg_time_per_path base))
                      (Int (avg_time_per_path curr)))
    (calculate_change (Int (p95 (latency_stats base)))
                      (Int (p95 (latency_stats curr))))
    throughput_change (throughput_marker throughput_change).

Definition step (st : tally) (j : item) : tally :=
  let '(name, base, curr) := j in
  let avg :=
    calculate_change (Int (avg_time_per_path base))
                     (Int (avg_time_per_path curr)) in
  append_line (track st name avg.1) (row j).

Lemma contains_true {V} (d : gmap string V) (k : string) (v : V) :
  d !! k = Some v → contains d k = true.
Proof. intros Hk. apply bool_decide_eq_true. by exists v. Qed.

Lemma contains_false {V} (d : gmap string V) (k : string) :
  d !! k = None → contains d k = false.
Proof.
  intros Hk. apply bool_decide_eq_false. rewrite Hk. by intros [? ?].
Qed.

Lemma compare_template_skip B C st name :
  B !! name = None ∨ C !! name = None →
  compare_template B C st name = Return st.
Proof.
  unfold compare_template. intros [Hn|Hn].
  - by rewrite (contains_false _ _ Hn).
  - rewrite (contains_false _ _ Hn). by rewrite orb_true_r.
Qed.

Lemma compare_template_joined B C st name base curr :
  B !! name = Some base → C !! name = Some curr →
  compare_template B C st name
  = if zero_throughput (name, base, curr) then Raise ZeroDivisionError
    else Return (step st (name, base, curr)).
Proof.
  intros Hb Hc. unfold compare_template, getitem.
  rewrite (contains_true _ _ _ Hb), (contains_true _ _ _ Hc), Hb, Hc.
  cbn. unfold zero_throughput, throughput_delta, truediv. cbn.
  by destruct (eq (throughput_paths_per_sec base) 0).
Qed.

(** The loop: it raises when a joined name has a zero baseline
    throughput, and otherwise folds [step] over the joined names. *)
Lemma for_each_compare_template B C names st :
  for_each (compare_template B C) names st
  = if existsb zero_throughput (joined B C names)
    then Raise ZeroDivisionError
    else Return (foldl step st (joined B C names)).
Proof.
  revert st. induction names as [|name names IH]; intros st; [done|].
  cbn [for_each]. unfold joined. cbn [omap list_omap]. fold (joined B C names).
  destruct (B !! name) as [base|] eqn:Hb; cbn.
  - destruct (C !! name) as [curr|] eqn:Hc; cbn.
    + rewrite (compare_template_joined _ _ _ _ _ _ Hb Hc).
      destruct (zero_throughput (name, base, curr)); cbn; [done|].
      apply IH.
    + rewrite compare_template_skip by auto. cbn. apply IH.
  - rewrite compare_template_skip by auto. cbn. apply IH.
Qed.

Lemma track_report st name change : report (track st name change) = report st.
Proof. unfold track. by repeat case_match. Qed.

Lemma foldl_step_report st js :
  report (foldl step st js) = report st ++ map row js.
Proof.
  revert st. induction js as [|j js IH]; intros st; cbn.
  - by rewrite app_nil_r.
  - rewrite IH. destruct j as [[name base] curr]. cbn.
    by rewrite track_report, <- app_assoc.
Qed.

End rows.

Lemma joined_lookup B C names name base curr :
  (name, base, curr) ∈ joined B C names →
  name ∈ names ∧ B !! name = Some base ∧ C !! name = Some curr.
Proof.
  unfold joined. rewrite list_elem_of_omap. intros (n & Hn & Hj).
  destruct (B !! n) eqn:Hb; [|done]. destruct (C !! n) eqn:Hc; [|done].
  cbn in Hj. by simplify_eq.
Qed.

Lemma joined_names B C names :
  name_of <$> joined B C names = filter (.∈ dom B ∩ dom C) names.
Proof.
  induction names as [|name names IH]; [done|].
  rewrite filter_cons. unfold joined. cbn [omap list_omap].
  fold (joined B C names).
  destruct (B !! name) as [base|] eqn:Hb; cbn.
  - destruct (C !! name) as [curr|] eqn:Hc; cbn.
    + rewrite decide_True; [by rewrite <- IH|].
      apply elem_of_intersection. split; by apply elem_of_dom.
    + rewrite decide_False; [done|].
      rewrite elem_of_intersection, !elem_of_dom, Hc.
      by intros [_ [? ?]].
  - rewrite decide_False; [done|].
    rewrite elem_of_intersection, !elem_of_dom, Hb.
    by intros [[? ?] _].
Qed.

(** The joined names of the sorted union are the sorted intersection. *)
Lemma joined_names_sorted_union B C :
  name_of <$> joined B C (sorted str_lt (elements (dom B ∪ dom C)))
  = sorted str_lt (elements (dom B ∩ dom C)).
Proof.
  rewrite joined_names, filter_sorted_elements.
  replace ((dom B ∪ dom C) ∩ (dom B ∩ dom C)) with (dom B ∩ dom C); [done|].
  apply set_eq. intros x. rewrite !elem_of_intersection, elem_of_union. tauto.
Qed.

End BenchmarksFacts.

Module BenchmarksReport.
Import Py CompareBenchmarks BenchmarksFacts.

Lemma elem_of_joined B C names name base curr :
  name ∈ names → B !! name = Some base → C !! name = Some curr →
  (name, base, curr) ∈ joined B C names.
Proof.
  intros Hn Hb Hc. apply list_elem_of_omap. exists name.
  split; [done|]. by rewrite Hb, Hc.
Qed.

Section report.
Context `{!Format}.

(** The names the loop visits, and the joined names among them. *)
Definition all_templates (baseline current : document) : list string :=
  sorted str_lt
    (elements (dom (results_by_template (benchmarks baseline))
               ∪ dom (results_by_template (benchmarks current)))).

Definition table (baseline current : document) : list item :=
  joined (results_by_template (benchmarks baseline))
         (results_by_template (benchmarks current))
         (all_templates baseline current).

(** The tally after the loop, when no division raised. *)
Definition final (baseline current : document) : tally :=
  foldl step
    {| report := header baseline current;
       regressions := []; improvements := []; neutral := [] |}
    (table baseline current).

Lemma compare_benchmarks_unfold `{!SetOrder} (baseline current : document) :
  compare_benchmarks baseline current
  = if existsb zero_throughput (table baseline current)
    then Raise ZeroDivisionError
    else Return (join nl (report (final baseline current) ++ [""]
                          ++ summary (all_templates baseline current)
                                     (final baseline current)
                          ++ highlights (final baseline current)
                          ++ legend)).
Proof.
  unfold compare_benchmarks. rewrite sorted_iter.
  fold (all_templates baseline current).
  rewrite for_each_compare_template. fold (table baseline current).
  destruct (existsb zero_throughput (table baseline current)); [done|].
  reflexivity.
Qed.

Lemma final_report (baseline current : document) :
  report (final baseline current)
  = header baseline current ++ map row (table baseline current).
Proof. unfold final. by rewrite foldl_step_report. Qed.

Lemma table_names (baseline current : document) :
  name_of <$> table baseline current
  = sorted str_lt
      (elements (dom (results_by_template (benchmarks baseline))
                 ∩ dom (results_by_template (benchmarks current)))).
Proof. apply joined_names_sorted_union. Qed.

Lemma table_length (baseline current : document) :
  length (table baseline current)
  = size (dom (results_by_template (benchmarks baseline))
          ∩ dom (results_by_template (benchmarks current))).
Proof.
  rewrite <- (length_fmap name_of), table_names, sorted_length. done.
Qed.

Lemma all_templates_length (baseline current : document) :
  length (all_templates baseline current)
  = size (dom (results_by_template (benchmarks baseline))
          ∪ dom (results_by_template (benchmarks current))).
Proof. unfold all_templates. by rewrite sorted_length. Qed.

Lemma compare_benchmarks_Return `{!SetOrder} baseline current text :
  compare_benchmarks baseline current = Return text →
  text = join nl (header baseline current
                  ++ map row (table baseline current) ++ [""]
                  ++ summary (all_templates baseline current)
                             (final baseline current)
                  ++ highlights (final baseline current)
                  ++ legend).
Proof.
  rewrite compare_benchmarks_unfold.
  destruct (existsb _ _); [done|]. intros [= <-].
  by rewrite final_report, <- app_assoc.
Qed.

End report.
End BenchmarksReport.

(** ** Documents to run the scripts on *)

Module Examples.
Import Py.

Definition measured (size avg p95 : Z) (throughput : Qc)
    : CompareBenchmarks.size_result :=
  {| CompareBenchmarks.input_size := size;
     CompareBenchmarks.avg_time_per_path := avg;
     CompareBenchmarks.latency_stats := {| CompareBenchmarks.p95 := p95 |};
     CompareBenchmarks.throughput_paths_per_sec := throughput |}.

Definition bench (name : string)
    (results : list CompareBenchmarks.size_result)
    : CompareBenchmarks.bench :=
  {| CompareBenchmarks.template_name := name;
     CompareBenchmarks.results := results |}.

(** Two runs over the templates "lower" and "upper"; the current run
    also has "only". *)
Definition baseline : CompareBenchmarks.document :=
  {| CompareBenchmarks.benchmarks :=
       [ bench "upper" [measured 10000 100 1500 (num 2000000)];
         bench "lower" [measured 10000 200 1500 (num 500)] ];
     CompareBenchmarks.timestamp := Some "t0" |}.

Definition current : CompareBenchmarks.document :=
  {| CompareBenchmarks.benchmarks :=
       [ bench "upper" [measured 100 1 1 0;
                        measured 10000 95 1700 (num 2100000)];
         bench "lower" [measured 10000 230 1500000 (num 450)];
         bench "only" [measured 10000 230 1500000 (num 450)];
         bench "empty" [] ];
     CompareBenchmarks.timestamp := None |}.

(** A baseline whose "lower" has a zero throughput. *)
Definition stalled : CompareBenchmarks.document :=
  {| CompareBenchmarks.benchmarks :=
       [ bench "upper" [measured 10000 100 1500 (num 2000000)];
         bench "lower" [measured 10000 200 1500 0] ];
     CompareBenchmarks.timestamp := Some "t0" |}.

(** A run that shares no template with [baseline]. *)
Definition unrelated : CompareBenchmarks.document :=
  {| CompareBenchmarks.benchmarks :=
       [ bench "trim" [measured 10000 230 1500000 (num 450)] ];
     CompareBenchmarks.timestamp := Some "t1" |}.

End Examples.

(** ** The throughput column and the summary count *)

(** C4.  When a template of both runs has a zero baseline throughput,
    [compare_benchmarks] raises [ZeroDivisionError]: the throughput
    change is a plain division, where [calculate_change] returns
    [(0, "➖")] for the same zero baseline. *)
Theorem zero_baseline_throughput_raises `{!Py.Format, !Py.SetOrder}
    (baseline current : CompareBenchmarks.document)
    (name : string) (base curr : CompareBenchmarks.size_result) :
  CompareBenchmarks.results_by_template
    (CompareBenchmarks.benchmarks baseline) !! name = Some base →
  CompareBenchmarks.results_by_template
    (CompareBenchmarks.benchmarks current) !! name = Some curr →
  CompareBenchmarks.throughput_paths_per_sec base = 0 →
  CompareBenchmarks.compare_benchmarks baseline current
  = Py.Raise Py.ZeroDivisionError
  ∧ CompareBenchmarks.throughput_delta
      (CompareBenchmarks.throughput_paths_per_sec base)
      (CompareBenchmarks.throughput_paths_per_sec curr)
    = Py.Raise Py.ZeroDivisionError
  ∧ CompareBenchmarks.calculate_change
      (Py.Float (CompareBenchmarks.throughput_paths_per_sec base))
      (Py.Float (CompareBenchmarks.throughput_paths_per_sec curr))
    = (0, Legend.neutral).
Proof.
  intros Hb Hc Hz. split; [|by rewrite Hz].
  rewrite BenchmarksReport.compare_benchmarks_unfold.
  assert (existsb BenchmarksFacts.zero_throughput
            (BenchmarksReport.table baseline current) = true) as ->; [|done].
  apply existsb_exists. exists (name, base, curr). split.
  - apply list_elem_of_In, BenchmarksReport.elem_of_joined; [|done..].
    apply elem_of_sorted_elements, elem_of_union. left.
    apply elem_of_dom. by exists base.
  - unfold BenchmarksFacts.zero_throughput. cbn. by rewrite Hz.
Qed.

Lemma zero_baseline_throughput_raises_witness :
  CompareBenchmarks.results_by_template
    (CompareBenchmarks.benchmarks Examples.stalled) !! "lower"
  = Some (Examples.measured 10000 200 1500 0)
  ∧ CompareBenchmarks.results_by_template
      (CompareBenchmarks.benchmarks Examples.current) !! "lower"
    = Some (Examples.measured 10000 230 1500000 (Py.num 450))
  ∧ @CompareBenchmarks.compare_benchmarks Decimal.format Elements.order
      Examples.stalled Examples.current
    = Py.Raise Py.ZeroDivisionError.
Proof.
  assert (CompareBenchmarks.results_by_template
            (CompareBenchmarks.benchmarks Examples.stalled) !! "lower"
          = Some (Examples.measured 10000 200 1500 0)) as Hb
    by (vm_compute; reflexivity).
  assert (CompareBenchmarks.results_by_template
            (CompareBenchmarks.benchmarks Examples.current) !! "lower"
          = Some (Examples.measured 10000 230 1500000 (Py.num 450))) as Hc
    by (vm_compute; reflexivity).
  split; [exact Hb|]. split; [exact Hc|].
  exact (proj1 (@zero_baseline_throughput_raises
                  Decimal.format Elements.order _ _ _ _ _ Hb Hc eq_refl)).
Defined.

(** C6.  In a report of [compare_benchmarks] the count after "Total
    templates compared" is the size of the union of the two sets of
    names, while the table has one row for each name of their
    intersection. *)
Theorem total_templates_counts_union `{!Py.Format, !Py.SetOrder}
    (baseline current : CompareBenchmarks.document) (text : string) :
  CompareBenchmarks.compare_benchmarks baseline current = Py.Return text →
  let names_baseline :=
    dom (CompareBenchmarks.results_by_template
           (CompareBenchmarks.benchmarks baseline)) in
  let names_current :=
    dom (CompareBenchmarks.results_by_template
           (CompareBenchmarks.benchmarks current)) in
  ∃ (rows : list string) (st : CompareBenchmarks.tally),
    text
    = Py.join Py.nl
        (CompareBenchmarks.header baseline current
         ++ rows ++ [""]
         ++ [ "## Summary" +:+ Py.nl;
              "- **Total templates compared:** "
                +:+ Py.str_int (Z.of_nat (size (names_baseline ∪ names_current)));
              "- **Improvements:** "
                +:+ Py.str_int (Py.len (CompareBenchmarks.improvements st))
                +:+ " 🟢";
              "- **Regressions:** "
                +:+ Py.str_int (Py.len (CompareBenchmarks.regressions st))
                +:+ " 🔴";
              "- **Neutral:** "
                +:+ Py.str_int (Py.len (CompareBenchmarks.neutral st))
                +:+ " ➖" +:+ Py.nl ]
         ++ CompareBenchmarks.highlights st
         ++ CompareBenchmarks.legend)
    ∧ length rows = size (names_baseline ∩ names_current).
Proof.
  intros Ht%BenchmarksReport.compare_benchmarks_Return B C.
  exists (map BenchmarksFacts.row (BenchmarksReport.table baseline current)),
         (BenchmarksReport.final baseline current).
  split.
  - rewrite Ht. unfold CompareBenchmarks.summary, Py.len.
    by rewrite BenchmarksReport.all_templates_length.
  - by rewrite length_map, BenchmarksReport.table_length.
Qed.

Lemma total_templates_counts_union_witness :
  ∃ text,
    @CompareBenchmarks.compare_benchmarks Decimal.format Elements.order
      Examples.baseline Examples.current = Py.Return text
    ∧ ∃ (rows : list string) (st : CompareBenchmarks.tally),
        text
        = Py.join Py.nl
            (CompareBenchmarks.header Examples.baseline Examples.current
             ++ rows ++ [""]
             ++ [ "## Summary" +:+ Py.nl;
                  "- **Total templates compared:** " +:+ Py.str_int 3;
                  "- **Improvements:** "
                    +:+ Py.str_int (Py.len (CompareBenchmarks.improvements st))
                    +:+ " 🟢";
                  "- **Regressions:** "
                    +:+ Py.str_int (Py.len (CompareBenchmarks.regressions st))
                    +:+ " 🔴";
                  "- **Neutral:** "
                    +:+ Py.str_int (Py.len (CompareBenchmarks.neutral st))
                    +:+ " ➖" +:+ Py.nl ]
             ++ @CompareBenchmarks.highlights Decimal.format st
             ++ CompareBenchmarks.legend)
        ∧ length rows = 2%nat.
Proof.
  eexists. split; [vm_compute; reflexivity|].
  exact (@total_templates_counts_union Decimal.format Elements.order
           Examples.baseline Examples.current _ eq_refl).
Defined.

(** ** The loader of the custom schema *)

Module Loader.
Import CompareBenchmarks.

(** What the entries named [name] contribute, in the order of the
    document: the last result of each one that has results. *)
Definition contributions (name : string) (benchmarks : list bench)
    : list size_result :=
  omap (λ entry,
          if decide (template_name entry = name) then last (results entry)
          else None) benchmarks.

Lemma results_by_template_snoc (benchmarks : list bench) (entry : bench) :
  results_by_template (benchmarks ++ [entry])
  = match last (results entry) with
    | Some largest =>
      <[template_name entry := largest]> (results_by_template benchmarks)
    | None => results_by_template benchmarks
    end.
Proof. unfold results_by_template. by rewrite foldl_app. Qed.

Lemma lookup_results_by_template (benchmarks : list bench) (name : string) :
  results_by_template benchmarks !! name
  = last (contributions name benchmarks).
Proof.
  induction benchmarks as [|entry benchmarks IH] using rev_ind; [done|].
  rewrite results_by_template_snoc. unfold contributions.
  rewrite omap_app. cbn. fold (contributions name benchmarks).
  destruct (decide (template_name entry = name)) as [->|Hne].
  - destruct (last (results entry)) as [largest|].
    + by rewrite lookup_insert_eq, last_snoc.
    + by rewrite app_nil_r.
  - rewrite app_nil_r. destruct (last (results entry)); [|done].
    by rewrite lookup_insert_ne.
Qed.

Lemma results_by_template_skip (before after : list bench) (entry : bench) :
  results entry = [] →
  results_by_template (before ++ entry :: after)
  = results_by_template (before ++ after).
Proof.
  intros He. unfold results_by_template. rewrite !foldl_app. cbn.
  by rewrite He.
Qed.

Lemma contributions_nil (name : string) (benchmarks : list bench) :
  (∀ entry, entry ∈ benchmarks → template_name entry = name →
            results entry = []) →
  contributions name benchmarks = [].
Proof.
  induction benchmarks as [|entry benchmarks IH]; intros Hall; [done|].
  unfold contributions. cbn. fold (contributions name benchmarks).
  rewrite IH by (intros; apply Hall; [by right|done]).
  case_decide; [|done].
  rewrite (Hall entry); [done|by left|done].
Qed.

End Loader.

(** C8.  For every entry of a document, the loader stores the last
    element of the entry's results under the entry's name, where it stays
    unless a later entry of the same name has results; an entry without
    results changes nothing: the dictionary is the one of the document
    without the entry.  A name whose entries all lack results is in no
    dictionary and in no row of the table. *)
Theorem loader_takes_last_result (doc : CompareBenchmarks.document) :
  let loaded :=
    CompareBenchmarks.results_by_template
      (CompareBenchmarks.benchmarks doc) in
  (∀ before entry after,
     CompareBenchmarks.benchmarks doc = before ++ entry :: after →
     match last (CompareBenchmarks.results entry) with
     | Some largest =>
       CompareBenchmarks.results_by_template (before ++ [entry])
         !! CompareBenchmarks.template_name entry = Some largest
       ∧ ((∀ later, later ∈ after →
             CompareBenchmarks.template_name later
             = CompareBenchmarks.template_name entry →
             CompareBenchmarks.results later = []) →
          loaded !! CompareBenchmarks.template_name entry = Some largest)
     | None =>
       CompareBenchmarks.results_by_template (before ++ [entry])
       = CompareBenchmarks.results_by_template before
       ∧ loaded = CompareBenchmarks.results_by_template (before ++ after)
     end)
  ∧ (∀ name, loaded !! name
             = last (Loader.contributions name
                       (CompareBenchmarks.benchmarks doc)))
  ∧ (∀ name,
       (∀ entry, entry ∈ CompareBenchmarks.benchmarks doc →
                 CompareBenchmarks.template_name entry = name →
                 CompareBenchmarks.results entry = []) →
       loaded !! name = None
       ∧ ∀ other,
           (name ∉ (BenchmarksFacts.name_of
                      <$> BenchmarksReport.table doc other))
           ∧ (name ∉ (BenchmarksFacts.name_of
                        <$> BenchmarksReport.table other doc))).
Proof.
  intros loaded. split; [|split].
  - intros before entry after Hdoc.
    destruct (last (CompareBenchmarks.results entry)) as [largest|] eqn:Hl.
    + split.
      * by rewrite Loader.results_by_template_snoc, Hl, lookup_insert_eq.
      * intros Hlater. unfold loaded.
        rewrite Loader.lookup_results_by_template, Hdoc.
        unfold Loader.contributions. rewrite omap_app. cbn.
        rewrite decide_True, Hl by done.
        fold (Loader.contributions
                (CompareBenchmarks.template_name entry) after).
        rewrite Loader.contributions_nil by done.
        apply last_snoc.
    + apply last_None in Hl. split.
      * rewrite Loader.results_by_template_snoc, Hl. done.
      * unfold loaded. rewrite Hdoc.
        by apply Loader.results_by_template_skip.
  - intros name. apply Loader.lookup_results_by_template.
  - intros name Hall.
    assert (loaded !! name = None) as Hnone.
    { unfold loaded. rewrite Loader.lookup_results_by_template.
      by rewrite Loader.contributions_nil. }
    split; [done|]. intros other.
    split; intros Hin; apply list_elem_of_fmap in Hin;
      destruct Hin as ([[n base] curr] & -> & Hin);
      apply BenchmarksFacts.joined_lookup in Hin as (_ & Hb & Hc);
      cbn in *; unfold loaded in Hnone; congruence.
Qed.

Lemma loader_takes_last_result_witness :
  CompareBenchmarks.results_by_template
    (CompareBenchmarks.benchmarks Examples.current) !! "upper"
  = Some (Examples.measured 10000 95 1700 (Py.num 2100000))
  ∧ CompareBenchmarks.results_by_template
      (CompareBenchmarks.benchmarks Examples.current) !! "empty" = None
  ∧ "empty" ∉ (BenchmarksFacts.name_of
                <$> BenchmarksReport.table Examples.baseline Examples.current).
Proof.
  destruct (loader_takes_last_result Examples.current) as (Hentry & _ & Hnone).
  assert (∀ name entries,
            Forall (λ entry, CompareBenchmarks.template_name entry = name
                             → CompareBenchmarks.results entry = []) entries
            → ∀ entry, entry ∈ entries →
                CompareBenchmarks.template_name entry = name →
                CompareBenchmarks.results entry = []) as Hall
    by (intros name entries HF; exact (proj1 (Forall_forall _ _) HF)).
  split; [|split].
  - refine (proj2 (Hentry [] (Examples.bench "upper" _) _ eq_refl) (Hall _ _ _)).
    repeat constructor; vm_compute; done.
  - refine (proj1 (Hnone "empty" (Hall _ _ _))).
    repeat constructor; vm_compute; done.
  - refine (proj2 (proj2 (Hnone "empty" (Hall _ _ _)) Examples.baseline)).
    repeat constructor; vm_compute; done.
Defined.

(** ** The report of [generate_comparison_report] *)

Module TemplateFacts.
Import Py CompareTemplateResults.

(** A template that both dictionaries hold, with its two timings. *)
Definition item : Type := string * timing * timing.

Definition name_of (j : item) : string := j.1.1.

Definition joined (baseline_by_template current_by_template : gmap string timing)
    (names : list string) : list item :=
  omap (λ name,
          baseline ← baseline_by_template !! name;
          current ← current_by_template !! name;
          Some (name, baseline, current)) names.

(** Both dictionaries hold the name. *)
Definition common (B C : gmap string timing) (name : string) : Prop :=
  is_Some (B !! name) ∧ is_Some (C !! name).

Lemma joined_timings_lookup B C names name baseline current :
  (name, baseline, current) ∈ joined B C names →
  name ∈ names ∧ B !! name = Some baseline ∧ C !! name = Some current.
Proof.
  unfold joined. rewrite list_elem_of_omap. intros (n & Hn & Hj).
  destruct (B !! n) eqn:Hb; [|done]. destruct (C !! n) eqn:Hc; [|done].
  cbn in Hj. by simplify_eq.
Qed.

Lemma joined_timings_names B C names :
  Forall (common B C) names → name_of <$> joined B C names = names.
Proof.
  induction 1 as [|name names [[b Hb] [c Hc]] _ IH]; [done|].
  unfold joined. cbn. rewrite Hb, Hc. cbn. fold (joined B C names).
  by rewrite IH.
Qed.

Lemma common_sorted_intersection B C :
  Forall (common B C) (sorted str_lt (elements (dom B ∩ dom C))).
Proof.
  apply Forall_forall. intros name Hn.
  apply elem_of_sorted_elements, elem_of_intersection in Hn.
  by rewrite !elem_of_dom in Hn.
Qed.

(** A traversal returns when each of its steps does. *)
Lemma mapM_Return {A B} (f : A → result B) (l : list A) :
  Forall (λ x, ∃ y, f x = Return y) l →
  ∃ ys, mapM f l = Return ys.
Proof.
  induction 1 as [|x l [y Hy] _ [ys IH]]; [by exists []|].
  exists (y :: ys). cbn. rewrite Hy. cbn.
  change (mapM f l ≫= (λ k, mret (y :: k)) = Return (y :: ys)).
  by rewrite IH.
Qed.

Section rows.
Context `{!Format}.

(** What one pass of the loop body does for a common template. *)
Definition row (j : item) : string :=
  let '(name, baseline, current) := j in
  table_row name baseline current
            (calculate_change (Float (mean baseline)) (Float (mean current))).

Definition step (st : tally) (j : item) : tally :=
  let '(name, baseline, current) := j in
  append_line
    (track st name (calculate_change (Float (mean baseline)) (Float (mean current))).1)
    (row j).

Lemma for_each_compare_timings B C names st :
  Forall (common B C) names →
  for_each (compare_template B C) names st
  = Return (foldl step st (joined B C names)).
Proof.
  intros Hall. revert st.
  induction Hall as [|name names [[b Hb] [c Hc]] _ IH]; intros st; [done|].
  cbn [for_each]. unfold joined. cbn. rewrite Hb, Hc. cbn.
  fold (joined B C names). rewrite <- IH.
  unfold compare_template, getitem. by rewrite Hb, Hc.
Qed.

Lemma track_lines st name change : lines (track st name change) = lines st.
Proof. unfold track. by repeat case_match. Qed.

Lemma foldl_step_lines st js :
  lines (foldl step st js) = lines st ++ map row js.
Proof.
  revert st. induction js as [|j js IH]; intros st; cbn.
  - by rewrite app_nil_r.
  - rewrite IH. destruct j as [[name baseline] current]. cbn.
    by rewrite track_lines, <- app_assoc.
Qed.

(** The templates of the two lists of changes are common templates. *)
Definition known (B C : gmap string timing) (st : tally) : Prop :=
  Forall (λ tc, common B C tc.1) (regressions st)
  ∧ Forall (λ tc, common B C tc.1) (improvements st).

Lemma step_known B C st name baseline current :
  common B C name → known B C st →
  known B C (step st (name, baseline, current)).
Proof.
  intros Hn [Hr Hi]. unfold step, track, known. cbn.
  repeat case_match; cbn; split; try done;
    apply Forall_app; split; try done; by apply Forall_singleton.
Qed.

Lemma foldl_step_known B C st names :
  known B C st → known B C (foldl step st (joined B C names)).
Proof.
  intros Hst.
  assert (Forall (λ j, common B C (name_of j)) (joined B C names)) as Hjs.
  { apply Forall_forall. intros [[n b] c] (_ & Hb & Hc)%joined_timings_lookup.
    split; by eexists. }
  revert st Hst. induction Hjs as [|[[n b] c] js Hj _ IH]; intros st Hst.
  - done.
  - cbn [foldl]. apply IH. by apply step_known.
Qed.

Lemma means_Return B C name :
  common B C name → ∃ times, means B C name = Return times.
Proof.
  intros [[b Hb] [c Hc]]. unfold means, getitem. rewrite Hb, Hc.
  by eexists.
Qed.

Lemma highlights_Return B C st :
  known B C st → ∃ changes, highlights B C st = Return changes.
Proof.
  intros [Hr Hi]. unfold highlights.
  assert (∀ (before : string * Qc → string * Qc → bool) l
            (line : string * Qc → string → string),
            Forall (λ tc, common B C tc.1) l →
            ∃ items,
              mapM (λ tc, times ← means B C tc.1; mret (line tc times))
                   (sorted before l) = Return items) as Hitems.
  { intros before l line Hl. apply mapM_Return.
    rewrite sorted_perm. eapply Forall_impl; [exact Hl|].
    intros tc [times Ht]%means_Return. rewrite Ht. by eexists. }
  destruct (Hitems (λ x y, gt x.2 y.2) (regressions st)
              (λ tc times, "- **`" +:+ tc.1 +:+ "`**: " +:+ fmt_plus_1f tc.2
                           +:+ "% slower " +:+ times) Hr) as [slower Hs].
  destruct (Hitems (λ x y, lt x.2 y.2) (improvements st)
              (λ tc times, "- **`" +:+ tc.1 +:+ "`**: "
                           +:+ fmt_1f (Qcabs tc.2)
                           +:+ "% faster " +:+ times) Hi) as [faster Hf].
  rewrite Hs, Hf.
  destruct (regressions st), (improvements st); by eexists.
Qed.

(** The sorted common templates, their items, and the tally after the
    loop. *)
Definition common_templates (baseline_data current_data : document)
    : list string :=
  sorted str_lt
    (elements (dom (by_template (results baseline_data))
               ∩ dom (by_template (results current_data)))).

Definition table (baseline_data current_data : document) : list item :=
  joined (by_template (results baseline_data))
         (by_template (results current_data))
         (common_templates baseline_data current_data).

Definition final (baseline_data current_data : document)
    (baseline_name current_name : string) (input_size : option Z) : tally :=
  foldl step
    {| lines := header baseline_name current_name input_size
                       (common_templates baseline_data current_data);
       regressions := []; improvements := []; neutral := [] |}
    (table baseline_data current_data).

Lemma common_table_names (baseline_data current_data : document) :
  name_of <$> table baseline_data current_data
  = common_templates baseline_data current_data.
Proof. apply joined_timings_names, common_sorted_intersection. Qed.

(** The report generator always returns: the error text when there is
    no common template, a report with one row for each common template
    otherwise. *)
Lemma generate_comparison_report_Return `{!SetOrder}
    (baseline_data current_data : document)
    (baseline_name current_name : string) (input_size : option Z) :
  let names := common_templates baseline_data current_data in
  let st :=
    final baseline_data current_data baseline_name current_name input_size in
  ∃ changes,
    generate_comparison_report baseline_data current_data
      baseline_name current_name input_size
    = Return
        (match names with
         | [] => no_common_templates
         | _ =>
           join nl (header baseline_name current_name input_size names
                    ++ map row (table baseline_data current_data) ++ [""]
                    ++ summary names st ++ changes ++ closing)
         end).
Proof.
  intros names st. unfold generate_comparison_report.
  rewrite sorted_iter. fold (common_templates baseline_data current_data).
  fold names.
  destruct (highlights_Return (by_template (results baseline_data))
              (by_template (results current_data)) st) as [changes Hc].
  { apply foldl_step_known. by split. }
  exists changes.
  assert (for_each
            (compare_template (by_template (results baseline_data))
                              (by_template (results current_data)))
            names
            {| lines := header baseline_name current_name input_size names;
               regressions := []; improvements := []; neutral := [] |}
          = Return st) as Hloop.
  { unfold names. rewrite for_each_compare_timings
      by apply common_sorted_intersection. done. }
  assert (lines st
          = header baseline_name current_name input_size names
            ++ map row (table baseline_data current_data)) as Hlines.
  { unfold st, final. by rewrite foldl_step_lines. }
  destruct names as [|name names']; [done|].
  rewrite Hloop. cbn [mbind result_bind]. rewrite Hc.
  cbn [mbind result_bind]. rewrite Hlines.
  unfold mret, result_ret. f_equal. f_equal. by rewrite <- !app_assoc.
Qed.

End rows.
End TemplateFacts.


(** Hyperfine runs to try the second script on. *)

Module Runs.
Import Py.

Definition timed (command : string) (mean min max stddev : Qc)
    : CompareTemplateResults.timing :=
  {| CompareTemplateResults.command := command;
     CompareTemplateResults.mean := mean;
     CompareTemplateResults.min := min;
     CompareTemplateResults.max := max;
     CompareTemplateResults.stddev := stddev |}.

(** The float of [n] thousandths of a second. *)
Definition ms (n : Z) : Qc := binary64 (num n / num 1000).

Definition baseline : CompareTemplateResults.document :=
  {| CompareTemplateResults.results :=
       [ timed "bench --template {upper} --size 1000 --output /dev/null"
               (ms 20) (ms 19) (ms 22) (ms 1);
         timed "bench --template {lower} --size 1000 --output /dev/null"
               (ms 40) (ms 38) (ms 45) (ms 2) ] |}.

Definition current : CompareTemplateResults.document :=
  {| CompareTemplateResults.results :=
       [ timed "bench --template {trim} --size 1000 --output /dev/null"
               (ms 10) (ms 9) (ms 12) (ms 1);
         timed "bench --template {upper} --size 1000 --output /dev/null"
               (ms 23) (ms 19) (ms 30) (ms 3);
         timed "bench --template {lower} --size 1000 --output /dev/null"
               (ms 36) (ms 35) (ms 37) (ms 1) ] |}.

(** A run that shares no template with [baseline]. *)
Definition unrelated : CompareTemplateResults.document :=
  {| CompareTemplateResults.results :=
       [ timed "bench --template {trim} --size 1000 --output /dev/null"
               (ms 10) (ms 9) (ms 12) (ms 1) ] |}.

End Runs.

(** ** The join of the two runs *)

(** [text] is a report of [compare_benchmarks] whose table has the rows
    of [items], in this order. *)
Definition benchmarks_report `{!Py.Format}
    (baseline current : CompareBenchmarks.document)
    (items : list BenchmarksFacts.item) (text : string) : Prop :=
  text
  = Py.join Py.nl
      (CompareBenchmarks.header baseline current
       ++ map BenchmarksFacts.row items ++ [""]
       ++ CompareBenchmarks.summary
            (BenchmarksReport.all_templates baseline current)
            (BenchmarksReport.final baseline current)
       ++ CompareBenchmarks.highlights
            (BenchmarksReport.final baseline current)
       ++ CompareBenchmarks.legend).

(** [text] is a report of [generate_comparison_report] whose table has
    the rows of [items], in this order. *)
Definition templates_report `{!Py.Format}
    (baseline_data current_data : CompareTemplateResults.document)
    (baseline_name current_name : string) (input_size : option Z)
    (items : list TemplateFacts.item) (text : string) : Prop :=
  ∃ changes : list string,
    text
    = Py.join Py.nl
        (CompareTemplateResults.header baseline_name current_name input_size
           (TemplateFacts.common_templates baseline_data current_data)
         ++ map TemplateFacts.row items ++ [""]
         ++ CompareTemplateResults.summary
              (TemplateFacts.common_templates baseline_data current_data)
              (TemplateFacts.final baseline_data current_data
                 baseline_name current_name input_size)
         ++ changes
         ++ CompareTemplateResults.closing).

Lemma benchmarks_table_lookup (baseline current : CompareBenchmarks.document)
    (name : string) (base curr : CompareBenchmarks.size_result) :
  (name, base, curr) ∈ BenchmarksReport.table baseline current ↔
  CompareBenchmarks.results_by_template
    (CompareBenchmarks.benchmarks baseline) !! name = Some base
  ∧ CompareBenchmarks.results_by_template
      (CompareBenchmarks.benchmarks current) !! name = Some curr.
Proof.
  split.
  - by intros (_ & ? & ?)%BenchmarksFacts.joined_lookup.
  - intros [Hb Hc]. apply BenchmarksReport.elem_of_joined; [|done..].
    apply elem_of_sorted_elements, elem_of_union. left.
    apply elem_of_dom. by eexists.
Qed.

Lemma templates_table_lookup
    (baseline_data current_data : CompareTemplateResults.document)
    (name : string) (baseline current : CompareTemplateResults.timing) :
  (name, baseline, current) ∈ TemplateFacts.table baseline_data current_data ↔
  CompareTemplateResults.by_template
    (CompareTemplateResults.results baseline_data) !! name = Some baseline
  ∧ CompareTemplateResults.by_template
      (CompareTemplateResults.results current_data) !! name = Some current.
Proof.
  split.
  - by intros (_ & ? & ?)%TemplateFacts.joined_timings_lookup.
  - intros [Hb Hc]. apply list_elem_of_omap. exists name. split.
    + apply elem_of_sorted_elements, elem_of_intersection.
      split; apply elem_of_dom; by eexists.
    + by rewrite Hb, Hc.
Qed.

Lemma templates_report_or_error `{!Py.Format, !Py.SetOrder}
    (baseline_data current_data : CompareTemplateResults.document)
    (baseline_name current_name : string) (input_size : option Z) :
  let common :=
    dom (CompareTemplateResults.by_template
           (CompareTemplateResults.results baseline_data))
    ∩ dom (CompareTemplateResults.by_template
             (CompareTemplateResults.results current_data)) in
  ∃ text,
    CompareTemplateResults.generate_comparison_report
      baseline_data current_data baseline_name current_name input_size
    = Py.Return text
    ∧ (common = ∅ → text = CompareTemplateResults.no_common_templates)
    ∧ (common ≠ ∅ →
       templates_report baseline_data current_data
         baseline_name current_name input_size
         (TemplateFacts.table baseline_data current_data) text).
Proof.
  intros common.
  destruct (TemplateFacts.generate_comparison_report_Return
              baseline_data current_data baseline_name current_name
              input_size) as [changes Hr].
  cbv zeta in Hr. eexists. split; [exact Hr|].
  assert (TemplateFacts.common_templates baseline_data current_data = []
          ↔ common = ∅) as Hempty.
  { unfold TemplateFacts.common_templates. fold common. split.
    - intros Hs. apply leibniz_equiv, elements_empty_inv.
      apply Permutation_nil_r.
      by rewrite <- (sorted_perm Py.str_lt (elements common)), Hs.
    - intros ->. by rewrite elements_empty. }
  split.
  - intros Hc%Hempty. by rewrite Hc.
  - intros Hne. unfold templates_report. exists changes.
    destruct (TemplateFacts.common_templates baseline_data current_data);
      [|done].
    exfalso. by apply Hne, Hempty.
Qed.


Lemma benchmarks_table_nil (baseline current : CompareBenchmarks.document) :
  dom (CompareBenchmarks.results_by_template
         (CompareBenchmarks.benchmarks baseline))
  ∩ dom (CompareBenchmarks.results_by_template
           (CompareBenchmarks.benchmarks current)) = ∅ →
  BenchmarksReport.table baseline current = [].
Proof.
  intros Hempty. apply (fmap_nil_inv BenchmarksFacts.name_of).
  by rewrite BenchmarksReport.table_names, Hempty, elements_empty.
Qed.

(** C5, as amended.  When the two runs share no template,
    [generate_comparison_report] returns the text "Error: No common
    templates found between baseline and current results.";
    [compare_benchmarks] has no such test and returns a report whose
    table has no row: the header, the summary with the size of the union
    and three zero counts, and the legend. *)
Theorem no_common_templates `{!Py.Format, !Py.SetOrder} :
  (∀ (baseline_data current_data : CompareTemplateResults.document)
     (baseline_name current_name : string) (input_size : option Z),
     dom (CompareTemplateResults.by_template
            (CompareTemplateResults.results baseline_data))
     ∩ dom (CompareTemplateResults.by_template
              (CompareTemplateResults.results current_data)) = ∅ →
     CompareTemplateResults.generate_comparison_report
       baseline_data current_data baseline_name current_name input_size
     = Py.Return
         "Error: No common templates found between baseline and current results.")
  ∧ (∀ baseline current : CompareBenchmarks.document,
       let names_baseline :=
         dom (CompareBenchmarks.results_by_template
                (CompareBenchmarks.benchmarks baseline)) in
       let names_current :=
         dom (CompareBenchmarks.results_by_template
                (CompareBenchmarks.benchmarks current)) in
       names_baseline ∩ names_current = ∅ →
       CompareBenchmarks.compare_benchmarks baseline current
       = Py.Return
           (Py.join Py.nl
              (CompareBenchmarks.header baseline current
               ++ [""]
               ++ [ "## Summary" +:+ Py.nl;
                    "- **Total templates compared:** "
                      +:+ Py.str_int
                            (Z.of_nat (size (names_baseline ∪ names_current)));
                    "- **Improvements:** 0 🟢";
                    "- **Regressions:** 0 🔴";
                    "- **Neutral:** 0 ➖" +:+ Py.nl ]
               ++ CompareBenchmarks.legend))).
Proof.
  split.
  - intros baseline_data current_data baseline_name current_name input_size
           Hempty.
    destruct (templates_report_or_error baseline_data current_data
                baseline_name current_name input_size)
      as (text & -> & Herror & _).
    by rewrite (Herror Hempty).
  - intros baseline current B C Hempty.
    rewrite BenchmarksReport.compare_benchmarks_unfold.
    unfold BenchmarksReport.final.
    rewrite (benchmarks_table_nil _ _ Hempty). cbn [existsb foldl].
    unfold CompareBenchmarks.summary, CompareBenchmarks.highlights, Py.len.
    cbn [CompareBenchmarks.report CompareBenchmarks.regressions
         CompareBenchmarks.improvements CompareBenchmarks.neutral length].
    by rewrite BenchmarksReport.all_templates_length.
Qed.

Lemma no_common_templates_witness :
  dom (CompareTemplateResults.by_template
         (CompareTemplateResults.results Runs.baseline))
  ∩ dom (CompareTemplateResults.by_template
           (CompareTemplateResults.results Runs.unrelated)) = ∅
  ∧ @CompareTemplateResults.generate_comparison_report
      Decimal.format Elements.order Runs.baseline Runs.unrelated
      "v1" "v2" (Some 1000%Z)
    = Py.Return
        "Error: No common templates found between baseline and current results.".
Proof.
  assert (dom (CompareTemplateResults.by_template
                 (CompareTemplateResults.results Runs.baseline))
          ∩ dom (CompareTemplateResults.by_template
                   (CompareTemplateResults.results Runs.unrelated)) = ∅)
    as Hempty
    by (apply (bool_decide_unpack _); vm_compute; reflexivity).
  split; [exact Hempty|].
  exact (proj1 (@no_common_templates Decimal.format Elements.order)
           Runs.baseline Runs.unrelated "v1" "v2" (Some 1000%Z) Hempty).
Defined.

(** C5, counterexample.  The baseline has "lower" and "upper", the
    other run only "trim"; [compare_benchmarks] returns a report with an
    empty table and a summary, not an error text. *)
Lemma benchmarks_without_common_template :
  dom (CompareBenchmarks.results_by_template
         (CompareBenchmarks.benchmarks Examples.baseline))
  ∩ dom (CompareBenchmarks.results_by_template
           (CompareBenchmarks.benchmarks Examples.unrelated)) = ∅
  ∧ @CompareBenchmarks.compare_benchmarks Decimal.format Elements.order
      Examples.baseline Examples.unrelated
    = Py.Return
        (Py.join Py.nl
           [ "# 📊 Benchmark Comparison Report" +:+ Py.nl;
             "**Input Size:** 10,000 paths" +:+ Py.nl;
             "**Baseline Timestamp:** t0";
             "**Current Timestamp:** t1" +:+ Py.nl;
             "## Performance Comparison" +:+ Py.nl;
             "| Template | Avg/Path | Change | p95 | Change | Throughput | Change |";
             "|----------|----------|--------|-----|--------|------------|--------|";
             "";
             "## Summary" +:+ Py.nl;
             "- **Total templates compared:** 3";
             "- **Improvements:** 0 🟢";
             "- **Regressions:** 0 🔴";
             "- **Neutral:** 0 ➖" +:+ Py.nl;
             "---" +:+ Py.nl;
             "### Legend";
             "- 🟢 Significant improvement (>5% faster)";
             "- ✅ Improvement (2-5% faster)";
             "- ➖ Neutral (<2% change)";
             "- 🟡 Caution (2-5% slower)";
             "- ⚠️ Warning (5-10% slower)";
             "- 🔴 Regression (>10% slower)" ])
  ∧ @CompareBenchmarks.compare_benchmarks Decimal.format Elements.order
      Examples.baseline Examples.unrelated
    ≠ Py.Return CompareTemplateResults.no_common_templates.
Proof.
  split; [|split].
  - apply (bool_decide_unpack _). vm_compute. reflexivity.
  - vm_compute. reflexivity.
  - vm_compute. discriminate.
Qed.

(** C7.  Every row of the table of either report belongs to a template
    that both runs have, with the two records found under its name; a
    template of one run only has no row. *)
Theorem rows_are_common_templates `{!Py.Format, !Py.SetOrder} :
  (∀ (baseline current : CompareBenchmarks.document) (text : string),
     CompareBenchmarks.compare_benchmarks baseline current = Py.Return text →
     ∃ items : list BenchmarksFacts.item,
       benchmarks_report baseline current items text
       ∧ ∀ name base curr,
           (name, base, curr) ∈ items ↔
           CompareBenchmarks.results_by_template
             (CompareBenchmarks.benchmarks baseline) !! name = Some base
           ∧ CompareBenchmarks.results_by_template
               (CompareBenchmarks.benchmarks current) !! name = Some curr)
  ∧ (∀ (baseline_data current_data : CompareTemplateResults.document)
       (baseline_name current_name : string) (input_size : option Z)
       (text : string),
       CompareTemplateResults.generate_comparison_report
         baseline_data current_data baseline_name current_name input_size
       = Py.Return text →
       text = CompareTemplateResults.no_common_templates
       ∨ ∃ items : list TemplateFacts.item,
           templates_report baseline_data current_data
             baseline_name current_name input_size items text
           ∧ ∀ name baseline current,
               (name, baseline, current) ∈ items ↔
               CompareTemplateResults.by_template
                 (CompareTemplateResults.results baseline_data) !! name
               = Some baseline
               ∧ CompareTemplateResults.by_template
                   (CompareTemplateResults.results current_data) !! name
                 = Some current).
Proof.
  split.
  - intros baseline current text Ht.
    exists (BenchmarksReport.table baseline current). split.
    + by apply BenchmarksReport.compare_benchmarks_Return.
    + apply benchmarks_table_lookup.
  - intros baseline_data current_data baseline_name current_name input_size
           text Ht.
    destruct (templates_report_or_error baseline_data current_data
                baseline_name current_name input_size)
      as (text' & Ht' & Herror & Hreport).
    assert (text' = text) as -> by congruence.
    destruct (decide (dom (CompareTemplateResults.by_template
                             (CompareTemplateResults.results baseline_data))
                      ∩ dom (CompareTemplateResults.by_template
                               (CompareTemplateResults.results current_data))
                      = ∅)) as [Hempty|Hne]; [left; auto|].
    right. exists (TemplateFacts.table baseline_data current_data).
    split; [auto|]. apply templates_table_lookup.
Qed.

Lemma rows_are_common_templates_witness :
  ∃ text,
    @CompareBenchmarks.compare_benchmarks Decimal.format Elements.order
      Examples.baseline Examples.current = Py.Return text
    ∧ ∃ items : list BenchmarksFacts.item,
        @benchmarks_report Decimal.format
          Examples.baseline Examples.current items text
        ∧ ∀ name base curr,
            (name, base, curr) ∈ items ↔
            CompareBenchmarks.results_by_template
              (CompareBenchmarks.benchmarks Examples.baseline) !! name
            = Some base
            ∧ CompareBenchmarks.results_by_template
                (CompareBenchmarks.benchmarks Examples.current) !! name
              = Some curr.
Proof.
  eexists. split; [vm_compute; reflexivity|].
  exact (proj1 (@rows_are_common_templates Decimal.format Elements.order)
           Examples.baseline Examples.current _ eq_refl).
Defined.

(** ** Reproducible output *)

(** C10.  The output of either script does not depend on the order in
    which the sets of names are iterated: two runs on the same input
    return the same text, or raise the same exception.  The rows of the
    table come in strictly increasing order of the template names. *)
Theorem report_is_reproducible `{!Py.Format} :
  (∀ (first second : Py.SetOrder)
     (baseline current : CompareBenchmarks.document),
     @CompareBenchmarks.compare_benchmarks _ first baseline current
     = @CompareBenchmarks.compare_benchmarks _ second baseline current)
  ∧ (∀ (first second : Py.SetOrder)
       (baseline_data current_data : CompareTemplateResults.document)
       (baseline_name current_name : string) (input_size : option Z),
       @CompareTemplateResults.generate_comparison_report _ first
         baseline_data current_data baseline_name current_name input_size
       = @CompareTemplateResults.generate_comparison_report _ second
           baseline_data current_data baseline_name current_name input_size)
  ∧ (∀ (order : Py.SetOrder)
       (baseline current : CompareBenchmarks.document) (text : string),
       @CompareBenchmarks.compare_benchmarks _ order baseline current
       = Py.Return text →
       ∃ items : list BenchmarksFacts.item,
         benchmarks_report baseline current items text
         ∧ increasing (BenchmarksFacts.name_of <$> items))
  ∧ (∀ (order : Py.SetOrder)
       (baseline_data current_data : CompareTemplateResults.document)
       (baseline_name current_name : string) (input_size : option Z)
       (text : string),
       @CompareTemplateResults.generate_comparison_report _ order
         baseline_data current_data baseline_name current_name input_size
       = Py.Return text →
       text = CompareTemplateResults.no_common_templates
       ∨ ∃ items : list TemplateFacts.item,
           templates_report baseline_data current_data
             baseline_name current_name input_size items text
           ∧ increasing (TemplateFacts.name_of <$> items)).
Proof.
  split; [|split; [|split]].
  - intros first second baseline current.
    by rewrite !BenchmarksReport.compare_benchmarks_unfold.
  - intros first second baseline_data current_data baseline_name
           current_name input_size.
    unfold CompareTemplateResults.generate_comparison_report.
    by rewrite !sorted_iter.
  - intros order baseline current text Ht.
    exists (BenchmarksReport.table baseline current). split.
    + by apply BenchmarksReport.compare_benchmarks_Return.
    + rewrite BenchmarksReport.table_names.
      apply sorted_elements_increasing.
  - intros order baseline_data current_data baseline_name current_name
           input_size text Ht.
    destruct (templates_report_or_error baseline_data current_data
                baseline_name current_name input_size)
      as (text' & Ht' & Herror & Hreport).
    assert (text' = text) as -> by congruence.
    destruct (decide (dom (CompareTemplateResults.by_template
                             (CompareTemplateResults.results baseline_data))
                      ∩ dom (CompareTemplateResults.by_template
                               (CompareTemplateResults.results current_data))
                      = ∅)) as [Hempty|Hne]; [left; auto|].
    right. exists (TemplateFacts.table baseline_data current_data).
    split; [auto|]. rewrite TemplateFacts.common_table_names.
    apply sorted_elements_increasing.
Qed.

Lemma report_is_reproducible_witness :
  @CompareBenchmarks.compare_benchmarks Decimal.format Elements.order
    Examples.baseline Examples.current
  = @CompareBenchmarks.compare_benchmarks Decimal.format Elements.reversed
      Examples.baseline Examples.current
  ∧ ∃ text,
      @CompareBenchmarks.compare_benchmarks Decimal.format Elements.reversed
        Examples.baseline Examples.current = Py.Return text
      ∧ ∃ items : list BenchmarksFacts.item,
          @benchmarks_report Decimal.format
            Examples.baseline Examples.current items text
          ∧ increasing (BenchmarksFacts.name_of <$> items).
Proof.
  destruct (@report_is_reproducible Decimal.format) as (Hsame & _ & Hrows & _).
  split; [apply Hsame|].
  eexists. split; [vm_compute; reflexivity|].
  exact (Hrows Elements.reversed Examples.baseline Examples.current _ eq_refl).
Defined.

(** ** The template of a hyperfine command *)

Module CommandFacts.
Import Py.

(** [sub] occurs in [s] at the index [i]. *)
Definition occurs_at (sub s : string) (i : nat) : Prop :=
  String.prefix sub (drop i s) = true.

(** The text of [s] before the first occurrence of [sep]; all of [s]
    when [sep] does not occur. *)
Definition before (sep s : string) : string :=
  match find sep s with
  | Some i => take i s
  | None => s
  end.

Lemma drop_empty (n : nat) : drop n "" = "".
Proof. by destruct n. Qed.

Lemma length_drop (n : nat) (s : string) :
  String.length (drop n s) = (String.length s - n)%nat.
Proof.
  revert s. induction n as [|n IH]; intros [|c s]; cbn; done.
Qed.

Lemma prefix_length (sub s : string) :
  String.prefix sub s = true → (String.length sub ≤ String.length s)%nat.
Proof.
  revert s. induction sub as [|a sub IH]; intros [|b s]; cbn; try done.
  - intros _. lia.
  - destruct (Ascii.ascii_dec a b); [|done]. intros H%IH. lia.
Qed.

(** [find] returns the first index at which [sub] occurs. *)
Lemma find_Some (sub s : string) (i : nat) :
  find sub s = Some i ↔
  occurs_at sub s i ∧ ∀ j, (j < i)%nat → ¬ occurs_at sub s j.
Proof.
  unfold occurs_at. revert i. induction s as [|c s IH]; intros i.
  - cbn [find]. destruct (String.prefix sub "") eqn:Hp.
    + split.
      * intros [= <-]. split; [done|]. lia.
      * intros [_ Hfirst]. destruct i; [done|].
        destruct (Hfirst 0%nat); [lia|done].
    + split; [done|]. rewrite drop_empty. intros [? _]. congruence.
  - cbn [find]. destruct (String.prefix sub (String c s)) eqn:Hp.
    + split.
      * intros [= <-]. split; [done|]. lia.
      * intros [_ Hfirst]. destruct i; [done|].
        destruct (Hfirst 0%nat); [lia|done].
    + destruct i as [|i].
      * split; [by destruct (find sub s)|]. cbn [drop]. intros [? _].
        congruence.
      * rewrite fmap_Some. split.
        -- intros (i' & Hi' & [= ->]). apply IH in Hi' as [Hocc Hfirst].
           split; [done|]. intros [|j] Hj; cbn [drop]; [congruence|].
           apply Hfirst. lia.
        -- intros [Hocc Hfirst]. exists i. split; [|done]. apply IH.
           split; [done|]. intros j Hj. apply (Hfirst (S j)). lia.
Qed.

Lemma find_None (sub s : string) :
  find sub s = None ↔ ∀ j, ¬ occurs_at sub s j.
Proof.
  unfold occurs_at. induction s as [|c s IH].
  - cbn [find]. destruct (String.prefix sub "") eqn:Hp.
    + split; [done|]. intros Hno. by destruct (Hno 0%nat).
    + split; [|done]. intros _ j. rewrite drop_empty. congruence.
  - cbn [find]. destruct (String.prefix sub (String c s)) eqn:Hp.
    + split; [done|]. intros Hno. by destruct (Hno 0%nat).
    + rewrite fmap_None, IH. split.
      * intros Hno [|j]; cbn [drop]; [congruence|apply Hno].
      * intros Hno j. apply (Hno (S j)).
Qed.

Lemma find_Some_length (sub s : string) (i : nat) :
  find sub s = Some i →
  (i + String.length sub ≤ String.length s)%nat.
Proof.
  destruct sub as [|a sub].
  - destruct s; cbn; intros [= <-]; lia.
  - intros [Hocc%prefix_length _]%find_Some.
    rewrite length_drop in Hocc. cbn in *. lia.
Qed.

(** The first part of a split is the text before the separator; enough
    rounds are left whenever the separator is found. *)
Lemma split_rounds_head (rounds : nat) (sep s : string) :
  sep ≠ "" → (String.length s ≤ rounds)%nat →
  head (split_rounds rounds sep s) = Some (before sep s).
Proof.
  intros Hsep Hrounds. unfold before.
  destruct rounds as [|rounds]; cbn [split_rounds];
    destruct (find sep s) as [i|] eqn:Hf; try done.
  apply find_Some_length in Hf. destruct sep; [done|]. cbn in Hf. lia.
Qed.

Lemma split_rounds_nil (rounds : nat) (sep s : string) :
  split_rounds rounds sep s ≠ [].
Proof. destruct rounds; cbn; by destruct (find sep s). Qed.

(** The equation of [split]. *)
Lemma split_unfold (sep s : string) :
  sep ≠ "" →
  split sep s
  = match find sep s with
    | Some i =>
      take i s
      :: split_rounds (String.length s - 1) sep
                      (drop (i + String.length sep) s)
    | None => [s]
    end.
Proof.
  intros Hsep. unfold split.
  destruct (String.length s) as [|n] eqn:Hlen; cbn [split_rounds];
    destruct (find sep s) as [i|] eqn:Hf; try done.
  - apply find_Some_length in Hf. destruct sep; [done|]. cbn in Hf. lia.
  - by replace (S n - 1)%nat with n by lia.
Qed.

End CommandFacts.

(** The command of the specification. *)
Example extract_template_foo :
  CompareTemplateResults.extract_template_from_command
    "bench --template foo --size 1000 --output /dev/null" = "foo".
Proof. vm_compute. reflexivity. Qed.

(** C9, as amended.  The identifier is "unknown" when "--template " does
    not occur in the command.  Otherwise it is the text that follows the
    first occurrence, up to the next occurrence of "--template " and, in
    that, up to the first space; for "bench --template foo --size 1000
    --output /dev/null" it is "foo". *)
Theorem extract_template_from_command_spec (command : string) :
  ((∀ i, ¬ CommandFacts.occurs_at "--template " command i) →
   CompareTemplateResults.extract_template_from_command command = "unknown")
  ∧ (∀ i,
       CommandFacts.occurs_at "--template " command i →
       (∀ j, (j < i)%nat → ¬ CommandFacts.occurs_at "--template " command j) →
       CompareTemplateResults.extract_template_from_command command
       = CommandFacts.before " "
           (CommandFacts.before "--template "
              (Py.drop (i + String.length "--template ") command)))
  ∧ CompareTemplateResults.extract_template_from_command
      "bench --template foo --size 1000 --output /dev/null" = "foo".
Proof.
  split; [|split; [|apply extract_template_foo]].
  - intros Habsent%CommandFacts.find_None.
    unfold CompareTemplateResults.extract_template_from_command.
    by rewrite CommandFacts.split_unfold, Habsent.
  - intros i Hocc Hfirst.
    assert (Py.find "--template " command = Some i) as Hfind
      by by apply CommandFacts.find_Some.
    unfold CompareTemplateResults.extract_template_from_command.
    rewrite CommandFacts.split_unfold, Hfind by done.
    set (rest := Py.drop (i + String.length "--template ") command).
    pose proof (CommandFacts.split_rounds_head
                  (String.length command - 1) "--template " rest) as Hparts.
    pose proof (CommandFacts.split_rounds_nil
                  (String.length command - 1) "--template " rest) as Hnil.
    destruct (Py.split_rounds _ "--template " rest) as [|part parts];
      [done|].
    cbn [length Nat.ltb Nat.leb lookup_total list_lookup_total].
    cbn [head] in Hparts.
    assert (part = CommandFacts.before "--template " rest) as ->.
    { assert (Some part = Some (CommandFacts.before "--template " rest));
        [|congruence].
      apply Hparts; [done|].
      apply CommandFacts.find_Some_length in Hfind.
      unfold rest. rewrite CommandFacts.length_drop. cbn in *. lia. }
    pose proof (CommandFacts.split_rounds_head
                  (String.length (CommandFacts.before "--template " rest))
                  " " (CommandFacts.before "--template " rest)) as Hvalue.
    pose proof (CommandFacts.split_rounds_nil
                  (String.length (CommandFacts.before "--template " rest))
                  " " (CommandFacts.before "--template " rest)) as Hnil'.
    unfold Py.split.
    destruct (Py.split_rounds _ " " _) as [|value values]; [done|].
    cbn in Hvalue |- *.
    assert (Some value
            = Some (CommandFacts.before " "
                      (CommandFacts.before "--template " rest)));
      [|congruence].
    by apply Hvalue.
Qed.

Lemma extract_template_from_command_spec_witness :
  CommandFacts.occurs_at "--template "
    "bench --template foo --size 1000 --output /dev/null" 6
  ∧ (∀ j, (j < 6)%nat →
          ¬ CommandFacts.occurs_at "--template "
              "bench --template foo --size 1000 --output /dev/null" j)
  ∧ CompareTemplateResults.extract_template_from_command
      "bench --template foo --size 1000 --output /dev/null"
    = CommandFacts.before " "
        (CommandFacts.before "--template "
           (Py.drop (6 + String.length "--template ")
                    "bench --template foo --size 1000 --output /dev/null")).
Proof.
  assert (Py.find "--template "
            "bench --template foo --size 1000 --output /dev/null" = Some 6%nat)
    as [Hocc Hfirst]%CommandFacts.find_Some by (vm_compute; reflexivity).
  split; [exact Hocc|]. split; [exact Hfirst|].
  exact (proj1 (proj2 (extract_template_from_command_spec _)) 6%nat
           Hocc Hfirst).
Defined.

(** The words of the specification: the identifier is the
    whitespace-delimited value that follows the first "--template ". *)

Module CommandSpec.

Definition tab : string := String (Ascii.ascii_of_nat 9) "".

Definition is_whitespace (c : Ascii.ascii) : bool :=
  let n := Ascii.nat_of_ascii c in
  (n =? 32)%nat || ((9 <=? n)%nat && (n <=? 13)%nat).

Fixpoint until_whitespace (s : string) : string :=
  match s with
  | EmptyString => ""
  | String c s' =>
    if is_whitespace c then "" else String c (until_whitespace s')
  end.

Definition value_after_token (command : string) : string :=
  match Py.find "--template " command with
  | Some i =>
    until_whitespace (Py.drop (i + String.length "--template ") command)
  | None => "unknown"
  end.

End CommandSpec.

(** C9, counterexample.  When the value ends in "--template" the second
    occurrence of "--template " cuts it short, and a tab does not end the
    value. *)
Lemma template_is_not_whitespace_delimited :
  CompareTemplateResults.extract_template_from_command
    "x --template a--template b" = "a"
  ∧ CommandSpec.value_after_token "x --template a--template b"
    = "a--template"
  ∧ CompareTemplateResults.extract_template_from_command
      ("bench --template foo" +:+ CommandSpec.tab +:+ "bar --size 10")
    = "foo" +:+ CommandSpec.tab +:+ "bar"
  ∧ CommandSpec.value_after_token
      ("bench --template foo" +:+ CommandSpec.tab +:+ "bar --size 10")
    = "foo"
  ∧ CompareTemplateResults.extract_template_from_command
      "x --template a--template b"
    ≠ CommandSpec.value_after_token "x --template a--template b".
Proof.
  repeat split; try (vm_compute; reflexivity).
  vm_compute. discriminate.
Qed.

(** ** More on the delta classifier *)

(** The exact bucket of each marker of [calculate_change]. *)
Definition lower_is_better_partition (p : Qc) (e : string) : Prop :=
  (e = Legend.significant_improvement ↔ p < Py.num (-5))
  ∧ (e = Legend.improvement ↔ Py.num (-5) ≤ p ∧ p < Py.num (-2))
  ∧ (e = Legend.neutral ↔ Qcabs p < Py.num 2)
  ∧ (e = Legend.caution ↔
     p = Py.num (-2) ∨ (Py.num 2 ≤ p ∧ p ≤ Py.num 5))
  ∧ (e = Legend.warning ↔ Py.num 5 < p ∧ p ≤ Py.num 10)
  ∧ (e = Legend.regression ↔ Py.num 10 < p).

Lemma partition_of_returned (p : Qc) :
  lower_is_better_partition p
    (if Py.lt (Qcabs p) (Py.num 2) then "➖"
      else if Py.lt p (Py.num (-5)) then "🟢"
      else if Py.lt p (Py.num (-2)) then "✅"
      else if Py.gt p (Py.num 10) then "🔴"
      else if Py.gt p (Py.num 5) then "⚠️"
      else "🟡").
Proof.
  unfold lower_is_better_partition.
  destruct (Py.lt (Qcabs p) _) eqn:H1;
    [|destruct (Py.lt p (Py.num (-5))) eqn:H2;
      [|destruct (Py.lt p (Py.num (-2))) eqn:H3;
        [|destruct (Py.gt p (Py.num 10)) eqn:H4;
          [|destruct (Py.gt p (Py.num 5)) eqn:H5]]]];
    repeat split; intros; try reflexivity; try discriminate.
  all: try (exfalso; to_Q; lra).
  all: to_Q; lra.
Qed.

Lemma partition_of_change (b c : Py.number) :
  lower_is_better_partition (CompareBenchmarks.calculate_change b c).1
    (CompareBenchmarks.calculate_change b c).2.
Proof.
  unfold CompareBenchmarks.calculate_change.
  destruct (Py.eq (Py.real b) 0); [|apply partition_of_returned].
  cbn [fst snd].
  replace (Q2Qc 0) with (Py.num 0) by (apply Qc_is_canon; reflexivity).
  apply (partition_of_returned (Py.num 0)).
Qed.

(** The marker that [calculate_change] returns is decided by the change
    it returns, for every baseline (zero included) and current value,
    ints or floats: each marker stands for exactly one set of returned
    changes, 🟢 below -5, ✅ from -5 to below -2, ➖ strictly between -2
    and 2, ⚠️ above 5 up to 10, 🔴 above 10, and 🟡 from 2 to 5 and also
    at exactly -2, which no other test catches. *)
Theorem calculate_change_partition (b c : Py.number) :
  lower_is_better_partition
    (CompareBenchmarks.calculate_change b c).1
    (CompareBenchmarks.calculate_change b c).2
  ∧ lower_is_better_partition
      (CompareTemplateResults.calculate_change b c).1
      (CompareTemplateResults.calculate_change b c).2.
Proof.
  rewrite calculate_change_same. split; apply partition_of_change.
Qed.

(** From 100 to 98 the returned change is exactly -2 and the marker is
    the caution marker, as ints and as floats. *)
Lemma caution_at_minus_two :
  CompareBenchmarks.calculate_change (Py.Int 100) (Py.Int 98)
  = (Py.num (-2), Legend.caution)
  ∧ CompareTemplateResults.calculate_change
      (Py.Float (Py.num 100)) (Py.Float (Py.num 98))
    = (Py.num (-2), Legend.caution).
Proof.
  split; apply (bool_decide_unpack _); vm_compute; reflexivity.
Qed.

(** Each marker of the throughput column stands for exactly one set of
    changes: 🟢 above 5, ✅ above 2 up to 5, 🟡 from -5 to below -2, ⚠️
    from -10 to below -5, 🔴 below -10, and ➖ from -2 to 2, both ends
    included (unlike the band of [calculate_change]). *)
Theorem throughput_marker_partition (p : Qc) :
  let e := CompareBenchmarks.throughput_marker p in
  (e = Legend.significant_improvement ↔ Py.num 5 < p)
  ∧ (e = Legend.improvement ↔ Py.num 2 < p ∧ p ≤ Py.num 5)
  ∧ (e = Legend.neutral ↔ Py.num (-2) ≤ p ∧ p ≤ Py.num 2)
  ∧ (e = Legend.caution ↔ Py.num (-5) ≤ p ∧ p < Py.num (-2))
  ∧ (e = Legend.warning ↔ Py.num (-10) ≤ p ∧ p < Py.num (-5))
  ∧ (e = Legend.regression ↔ p < Py.num (-10)).
Proof.
  intros e. subst e. unfold CompareBenchmarks.throughput_marker.
  destruct (Py.lt (Qcabs p) _) eqn:H1;
    [|destruct (Py.gt p (Py.num 5)) eqn:H2;
      [|destruct (Py.gt p (Py.num 2)) eqn:H3;
        [|destruct (Py.lt p (Py.num (-10))) eqn:H4;
          [|destruct (Py.lt p (Py.num (-5))) eqn:H5;
            [|destruct (Py.lt p (Py.num (-2))) eqn:H6]]]]];
    repeat split; intros; try reflexivity; try discriminate.
  all: try (exfalso; to_Q; lra).
  all: to_Q; lra.
Qed.

Lemma Qcmult_this (x y : Qc) : (this (x * y) == this x * this y)%Q.
Proof. unfold Qcmult, Q2Qc. cbn [this]. apply Qred_correct. Qed.


(** ** The three groups of the summary *)

Lemma regression_marker (b c : Py.number) :
  Py.gt (CompareBenchmarks.calculate_change b c).1 (Py.num 10) = true
  ↔ (CompareBenchmarks.calculate_change b c).2 = Legend.regression.
Proof.
  destruct (partition_of_change b c) as (_ & _ & _ & _ & _ & ->).
  apply gt_true.
Qed.

Lemma improvement_marker (b c : Py.number) :
  Py.lt (CompareBenchmarks.calculate_change b c).1 (Py.num (-5)) = true
  ↔ (CompareBenchmarks.calculate_change b c).2
    = Legend.significant_improvement.
Proof.
  destruct (partition_of_change b c) as (-> & _).
  apply lt_true.
Qed.

Module BenchmarksTally.
Import Py CompareBenchmarks BenchmarksFacts.

(** The change and the marker of the average time of an item. *)
Definition avg (j : item) : Qc * string :=
  calculate_change (Int (avg_time_per_path j.1.2))
                   (Int (avg_time_per_path j.2)).

(** The groups of a list of items, as [track] forms them. *)
Definition regressed (js : list item) : list (string * Qc) :=
  map (λ j, (name_of j, (avg j).1))
      (filter (λ j, (avg j).2 = Legend.regression) js).

Definition improved (js : list item) : list (string * Qc) :=
  map (λ j, (name_of j, (avg j).1))
      (filter (λ j, (avg j).2 = Legend.significant_improvement) js).

Definition unchanged (js : list item) : list string :=
  map name_of
      (filter (λ j, (avg j).2 ≠ Legend.regression
                    ∧ (avg j).2 ≠ Legend.significant_improvement) js).

Lemma foldl_step_groups `{!Format} (st : tally) (js : list item) :
  regressions (foldl step st js) = regressions st ++ regressed js
  ∧ improvements (foldl step st js) = improvements st ++ improved js
  ∧ neutral (foldl step st js) = neutral st ++ unchanged js.
Proof.
  revert st. induction js as [|[[name base] curr] js IH]; intros st.
  - unfold regressed, improved, unchanged. cbn. by rewrite !app_nil_r.
  - cbn [foldl]. destruct (IH (step st (name, base, curr))) as (-> & -> & ->).
    unfold regressed, improved, unchanged. rewrite !filter_cons.
    pose proof (regression_marker (Int (avg_time_per_path base))
                  (Int (avg_time_per_path curr))) as Hr.
    pose proof (improvement_marker (Int (avg_time_per_path base))
                  (Int (avg_time_per_path curr))) as Hi.
    unfold step, track, avg in *. cbn [fst snd] in *.
    destruct (gt _ (num 10)) eqn:Hgt.
    + assert ((calculate_change (Int (avg_time_per_path base))
                 (Int (avg_time_per_path curr))).2 = Legend.regression)
        as He by by apply Hr.
      rewrite decide_True by done.
      rewrite decide_False by (rewrite He; done).
      rewrite decide_False by (rewrite He; intros [? _]; done).
      cbn. by rewrite <- !app_assoc.
    + assert ((calculate_change (Int (avg_time_per_path base))
                 (Int (avg_time_per_path curr))).2 ≠ Legend.regression)
        as He by (intros ?%Hr; done).
      rewrite (decide_False (P := _ = Legend.regression)) by done.
      destruct (lt _ (num (-5))) eqn:Hlt.
      * assert ((calculate_change (Int (avg_time_per_path base))
                   (Int (avg_time_per_path curr))).2
                = Legend.significant_improvement) as He' by by apply Hi.
        rewrite decide_True by done.
        rewrite decide_False by (intros [_ ?]; done).
        cbn. by rewrite <- !app_assoc.
      * assert ((calculate_change (Int (avg_time_per_path base))
                   (Int (avg_time_per_path curr))).2
                ≠ Legend.significant_improvement) as He'
          by (intros ?%Hi; done).
        rewrite decide_False by done.
        rewrite decide_True by done.
        cbn. by rewrite <- !app_assoc.
Qed.

Lemma groups_length (js : list item) :
  (length (improved js) + length (regressed js) + length (unchanged js)
   = length js)%nat.
Proof.
  unfold improved, regressed, unchanged. rewrite !length_map.
  induction js as [|j js IH]; [done|]. rewrite !filter_cons.
  destruct (decide ((avg j).2 = Legend.regression)) as [Hr|Hr];
    destruct (decide ((avg j).2 = Legend.significant_improvement))
      as [Hi|Hi].
  - rewrite Hr in Hi. done.
  - rewrite decide_False by (intros [? _]; done). cbn. lia.
  - rewrite decide_False by (intros [_ ?]; done). cbn. lia.
  - rewrite decide_True by done. cbn. lia.
Qed.

End BenchmarksTally.

(** In a report of [compare_benchmarks] the regressions are the rows
    whose average-time marker is 🔴, the improvements those whose marker
    is 🟢, each in the order of the table, and every other row is counted
    as neutral; the three counts of the summary add up to the number of
    rows. *)
Theorem summary_groups_follow_markers `{!Py.Format, !Py.SetOrder}
    (baseline current : CompareBenchmarks.document) (text : string) :
  CompareBenchmarks.compare_benchmarks baseline current = Py.Return text →
  ∃ (items : list BenchmarksFacts.item) (st : CompareBenchmarks.tally),
    text
    = Py.join Py.nl
        (CompareBenchmarks.header baseline current
         ++ map BenchmarksFacts.row items ++ [""]
         ++ CompareBenchmarks.summary
              (BenchmarksReport.all_templates baseline current) st
         ++ CompareBenchmarks.highlights st
         ++ CompareBenchmarks.legend)
    ∧ CompareBenchmarks.regressions st = BenchmarksTally.regressed items
    ∧ CompareBenchmarks.improvements st = BenchmarksTally.improved items
    ∧ CompareBenchmarks.neutral st = BenchmarksTally.unchanged items
    ∧ (length (CompareBenchmarks.improvements st)
       + length (CompareBenchmarks.regressions st)
       + length (CompareBenchmarks.neutral st)
       = length items)%nat.
Proof.
  intros Ht%BenchmarksReport.compare_benchmarks_Return.
  exists (BenchmarksReport.table baseline current),
         (BenchmarksReport.final baseline current).
  split; [exact Ht|].
  destruct (BenchmarksTally.foldl_step_groups
              {| CompareBenchmarks.report :=
                   CompareBenchmarks.header baseline current;
                 CompareBenchmarks.regressions := [];
                 CompareBenchmarks.improvements := [];
                 CompareBenchmarks.neutral := [] |}
              (BenchmarksReport.table baseline current)) as (Hr & Hi & Hn).
  fold (BenchmarksReport.final baseline current) in Hr, Hi, Hn.
  cbn in Hr, Hi, Hn. rewrite Hr, Hi, Hn.
  repeat split. apply BenchmarksTally.groups_length.
Qed.

Lemma summary_groups_follow_markers_witness :
  ∃ text,
    @CompareBenchmarks.compare_benchmarks Decimal.format Elements.order
      Examples.baseline Examples.current = Py.Return text
    ∧ ∃ (items : list BenchmarksFacts.item) (st : CompareBenchmarks.tally),
        text
        = Py.join Py.nl
            (CompareBenchmarks.header Examples.baseline Examples.current
             ++ map (@BenchmarksFacts.row Decimal.format) items ++ [""]
             ++ CompareBenchmarks.summary
                  (BenchmarksReport.all_templates
                     Examples.baseline Examples.current) st
             ++ @CompareBenchmarks.highlights Decimal.format st
             ++ CompareBenchmarks.legend)
        ∧ CompareBenchmarks.regressions st = BenchmarksTally.regressed items
        ∧ CompareBenchmarks.improvements st = BenchmarksTally.improved items
        ∧ CompareBenchmarks.neutral st = BenchmarksTally.unchanged items
        ∧ (length (CompareBenchmarks.improvements st)
           + length (CompareBenchmarks.regressions st)
           + length (CompareBenchmarks.neutral st)
           = length items)%nat.
Proof.
  eexists. split; [vm_compute; reflexivity|].
  exact (@summary_groups_follow_markers Decimal.format Elements.order
           Examples.baseline Examples.current _ eq_refl).
Defined.

Module TemplatesTally.
Import Py CompareTemplateResults TemplateFacts.

(** The change and the marker of the mean time of an item. *)
Definition change (j : item) : Qc * string :=
  calculate_change (Float (mean j.1.2)) (Float (mean j.2)).

Definition regressed (js : list item) : list (string * Qc) :=
  map (λ j, (name_of j, (change j).1))
      (filter (λ j, (change j).2 = Legend.regression) js).

Definition improved (js : list item) : list (string * Qc) :=
  map (λ j, (name_of j, (change j).1))
      (filter (λ j, (change j).2 = Legend.significant_improvement) js).

Definition unchanged (js : list item) : list string :=
  map name_of
      (filter (λ j, (change j).2 ≠ Legend.regression
                    ∧ (change j).2 ≠ Legend.significant_improvement) js).



End TemplatesTally.



(** ** The lists of regressions and improvements *)

Lemma Sorted_weaken {A} (R R' : A → A → Prop) (l : list A) :
  (∀ x y, R x y → R' x y) → Sorted R l → Sorted R' l.
Proof.
  intros HR. induction 1 as [|x l Hl IH Hx]; constructor; [done|].
  destruct Hx; constructor. by apply HR.
Qed.

Section sorted_by.
Context {A : Type} (before : A → A → bool).
Hypothesis before_asym : ∀ x y, before x y = true → before y x = false.

Lemma insert_sorted_Sorted_by (x : A) (l : list A) :
  Sorted (λ x y, before y x = false) l →
  Sorted (λ x y, before y x = false) (Py.insert_sorted before x l).
Proof.
  induction 1 as [|y l Hl IH Hy]; cbn; [by repeat constructor|].
  destruct (before y x) eqn:Hyx.
  - constructor; [done|].
    destruct Hy as [|z l Hz]; cbn in *.
    + constructor. by apply before_asym.
    + destruct (before z x); constructor; [done|by apply before_asym].
  - by repeat constructor.
Qed.

Lemma sorted_Sorted_by (l : list A) :
  Sorted (λ x y, before y x = false) (Py.sorted before l).
Proof.
  induction l as [|x l IH]; cbn; [constructor|].
  by apply insert_sorted_Sorted_by.
Qed.

(** A list that is in order already is returned as it is: equal keys
    keep their order. *)
Lemma sorted_id (l : list A) :
  Sorted (λ x y, before y x = false) l → Py.sorted before l = l.
Proof.
  induction 1 as [|x l Hl IH Hx]; [done|].
  cbn. fold (Py.sorted before l). rewrite IH.
  destruct Hx as [|y l Hy]; cbn; [done|]. by rewrite Hy.
Qed.

End sorted_by.

(** The section of the regressions and the one of the improvements in a
    report of [compare_benchmarks]. *)
Definition regressions_section `{!Py.Format} (slower : list (string * Qc))
    : list string :=
  match slower with
  | [] => []
  | _ =>
    ["### ⚠️ PERFORMANCE REGRESSIONS" +:+ Py.nl]
    ++ map (λ tc : string * Qc,
              "- **" +:+ tc.1 +:+ "**: " +:+ Py.fmt_plus_1f tc.2
              +:+ "% slower") slower
    ++ [""]
  end.

Definition improvements_section `{!Py.Format} (faster : list (string * Qc))
    : list string :=
  match faster with
  | [] => []
  | _ =>
    ["### ✨ Performance Improvements" +:+ Py.nl]
    ++ map (λ tc : string * Qc,
              "- **" +:+ tc.1 +:+ "**: " +:+ Py.fmt_1f (Qcabs tc.2)
              +:+ "% faster") faster
    ++ [""]
  end.

(** [highlights] lists every regression once, the largest change first,
    and every improvement once, the most negative change first; a section
    is left out when its list is empty, and a list that is already in
    that order is printed as it was collected. *)
Theorem highlights_worst_first `{!Py.Format} (st : CompareBenchmarks.tally) :
  ∃ slower faster : list (string * Qc),
    CompareBenchmarks.highlights st
    = regressions_section slower ++ improvements_section faster
    ∧ slower ≡ₚ CompareBenchmarks.regressions st
    ∧ Sorted (λ x y, y.2 ≤ x.2) slower
    ∧ faster ≡ₚ CompareBenchmarks.improvements st
    ∧ Sorted (λ x y, x.2 ≤ y.2) faster
    ∧ (Sorted (λ x y, y.2 ≤ x.2) (CompareBenchmarks.regressions st) →
       slower = CompareBenchmarks.regressions st)
    ∧ (Sorted (λ x y, x.2 ≤ y.2) (CompareBenchmarks.improvements st) →
       faster = CompareBenchmarks.improvements st).
Proof.
  exists (Py.sorted (λ x y, Py.gt x.2 y.2) (CompareBenchmarks.regressions st)),
         (Py.sorted (λ x y, Py.lt x.2 y.2)
                    (CompareBenchmarks.improvements st)).
  assert (∀ x y : string * Qc, Py.gt x.2 y.2 = true → Py.gt y.2 x.2 = false)
    as Hgt.
  { intros x y. rewrite gt_true, gt_false. apply Qclt_le_weak. }
  assert (∀ x y : string * Qc, Py.lt x.2 y.2 = true → Py.lt y.2 x.2 = false)
    as Hlt.
  { intros x y. rewrite lt_true, lt_false. apply Qclt_le_weak. }
  assert (∀ l : list (string * Qc),
            Sorted (λ x y, y.2 ≤ x.2) l
            ↔ Sorted (λ x y, Py.gt y.2 x.2 = false) l) as Hdown.
  { intros l. split; apply Sorted_weaken; intros x y; by rewrite gt_false. }
  assert (∀ l : list (string * Qc),
            Sorted (λ x y, x.2 ≤ y.2) l
            ↔ Sorted (λ x y, Py.lt y.2 x.2 = false) l) as Hup.
  { intros l. split; apply Sorted_weaken; intros x y; by rewrite lt_false. }
  split; [|split; [|split; [|split; [|split; [|split]]]]].
  - unfold CompareBenchmarks.highlights, regressions_section,
      improvements_section.
    pose proof (sorted_perm (λ x y : string * Qc, Py.gt x.2 y.2)
                  (CompareBenchmarks.regressions st)) as Hr.
    pose proof (sorted_perm (λ x y : string * Qc, Py.lt x.2 y.2)
                  (CompareBenchmarks.improvements st)) as Hi.
    destruct (CompareBenchmarks.regressions st) as [|r rs] eqn:Er;
      destruct (CompareBenchmarks.improvements st) as [|f fs] eqn:Ei.
    + done.
    + destruct (Py.sorted _ (f :: fs)) eqn:Es; [|done].
      by apply Permutation_nil_cons in Hi.
    + destruct (Py.sorted _ (r :: rs)) eqn:Es; [|done].
      by apply Permutation_nil_cons in Hr.
    + destruct (Py.sorted _ (r :: rs)) eqn:Es;
        [by apply Permutation_nil_cons in Hr|].
      destruct (Py.sorted _ (f :: fs)) eqn:Es';
        [by apply Permutation_nil_cons in Hi|].
      done.
  - apply sorted_perm.
  - apply Hdown. by apply sorted_Sorted_by.
  - apply sorted_perm.
  - apply Hup. by apply sorted_Sorted_by.
  - intros Hs%Hdown. by apply sorted_id.
  - intros Hs%Hup. by apply sorted_id.
Qed.

Lemma highlights_worst_first_witness :
  let st :=
    {| CompareBenchmarks.report := [];
       CompareBenchmarks.regressions :=
         [("split", Py.num 30); ("upper", Py.num 12)];
       CompareBenchmarks.improvements := [];
       CompareBenchmarks.neutral := [] |} in
  Sorted (λ x y : string * Qc, y.2 ≤ x.2) (CompareBenchmarks.regressions st)
  ∧ @CompareBenchmarks.highlights Decimal.format st
    = @regressions_section Decimal.format (CompareBenchmarks.regressions st).
Proof.
  intros st.
  assert (Sorted (λ x y : string * Qc, y.2 ≤ x.2)
            (CompareBenchmarks.regressions st)) as Hs.
  { repeat constructor. cbn. done. }
  split; [exact Hs|].
  destruct (@highlights_worst_first Decimal.format st)
    as (slower & faster & Hh & _ & _ & Hf & _ & Hslower & _).
  rewrite Hh, (Hslower Hs).
  apply Permutation_nil_r in Hf. rewrite Hf. apply app_nil_r.
Defined.

(** ** When the scripts raise *)






(** ** The dictionary of hyperfine results *)

Module Timings.
Import Py CompareTemplateResults.

(** The results of a run whose command gives the template [template],
    in the order of the document. *)
Definition results_of (template : string) (results : list timing)
    : list timing :=
  filter (λ result, extract_template_from_command (command result) = template)
         results.

Lemma by_template_snoc (results : list timing) (result : timing) :
  by_template (results ++ [result])
  = <[extract_template_from_command (command result) := result]>
      (by_template results).
Proof. unfold by_template. by rewrite foldl_app. Qed.

End Timings.

(** The dictionary built from a hyperfine document holds, under each
    template, the last result whose command gives that template: results
    with the same template (all the commands without "--template " among
    them, under "unknown") replace one another, and a template is in the
    dictionary exactly when some command gives it. *)
Theorem by_template_keeps_last
    (results : list CompareTemplateResults.timing) (template : string) :
  CompareTemplateResults.by_template results !! template
  = last (Timings.results_of template results)
  ∧ (template ∈ dom (CompareTemplateResults.by_template results)
     ↔ ∃ result,
         result ∈ results
         ∧ CompareTemplateResults.extract_template_from_command
             (CompareTemplateResults.command result) = template)
  ∧ (size (dom (CompareTemplateResults.by_template results))
     ≤ length results)%nat.
Proof.
  assert (CompareTemplateResults.by_template results !! template
          = last (Timings.results_of template results)) as Hlookup.
  { induction results as [|result results IH] using rev_ind; [done|].
    rewrite Timings.by_template_snoc. unfold Timings.results_of.
    rewrite filter_app, filter_cons, filter_nil.
    fold (Timings.results_of template results).
    case_decide as Ht.
    - by rewrite Ht, lookup_insert_eq, last_snoc.
    - by rewrite lookup_insert_ne, app_nil_r. }
  split; [done|]. split.
  - rewrite elem_of_dom, Hlookup. unfold Timings.results_of. split.
    + intros [result Hr]. exists result.
      apply last_Some_elem_of, list_elem_of_filter in Hr. tauto.
    + intros (result & Hin & Ht).
      destruct (last (filter _ results)) eqn:Hl; [by eexists|].
      apply last_None in Hl.
      assert (result ∈ filter
                (λ r, CompareTemplateResults.extract_template_from_command
                        (CompareTemplateResults.command r) = template)
                results) as Hf by by apply list_elem_of_filter.
      rewrite Hl in Hf. by apply not_elem_of_nil in Hf.
  - clear. induction results as [|result results IH] using rev_ind.
    + done.
    + rewrite Timings.by_template_snoc, dom_insert_L, length_app. cbn.
      rewrite size_union_alt, size_singleton.
      assert (size (dom (CompareTemplateResults.by_template results)
                    ∖ {[CompareTemplateResults.extract_template_from_command
                          (CompareTemplateResults.command result)]})
              ≤ size (dom (CompareTemplateResults.by_template results)))%nat.
      { apply subseteq_size. intros x. rewrite elem_of_difference. tauto. }
      lia.
Qed.

(** ** More on the template of a command *)

Module Words.
Import Py CommandFacts.

Definition space : Ascii.ascii := Ascii.ascii_of_nat 32.

(** [s] has no space character. *)
Definition no_space (s : string) : Prop := find " " s = None.

Lemma find_space_cons (c : Ascii.ascii) (s : string) :
  find " " (String c s)
  = if decide (c = space) then Some 0%nat else S <$> find " " s.
Proof.
  cbn [find String.prefix].
  destruct (Ascii.ascii_dec _ c) as [<-|Hne].
  - rewrite decide_True by done. by destruct s.
  - rewrite decide_False; [done|]. intros ->. by apply Hne.
Qed.

Lemma no_space_cons (c : Ascii.ascii) (s : string) :
  no_space (String c s) ↔ c ≠ space ∧ no_space s.
Proof.
  unfold no_space. rewrite find_space_cons. case_decide.
  - split; [done|]. intros [? _]. done.
  - rewrite fmap_None. tauto.
Qed.

Lemma no_space_drop (j : nat) (s : string) :
  no_space s → no_space (drop j s).
Proof.
  revert s. induction j as [|j IH]; intros [|c s]; cbn [drop]; try done.
  intros [_ ?]%no_space_cons. by apply IH.
Qed.

Lemma append_cons (c : Ascii.ascii) (s t : string) :
  String c s +:+ t = String c (s +:+ t).
Proof. reflexivity. Qed.

Lemma append_nil (t : string) : "" +:+ t = t.
Proof. reflexivity. Qed.

Lemma app_empty_r (s : string) : s +:+ "" = s.
Proof.
  induction s as [|c s IH]; [done|]. by rewrite append_cons, IH.
Qed.

Lemma drop_app_le (j : nat) (a b : string) :
  (j ≤ String.length a)%nat → drop j (a +:+ b) = drop j a +:+ b.
Proof.
  revert a. induction j as [|j IH]; intros [|c a] Hj; try done.
  - cbn in Hj. lia.
  - rewrite append_cons. cbn [drop]. apply IH. cbn in Hj. lia.
Qed.

Lemma drop_app_length (a b : string) : drop (String.length a) (a +:+ b) = b.
Proof.
  induction a as [|c a IH]; [by destruct b|].
  by rewrite append_cons.
Qed.

Lemma take_app_ge (j : nat) (a b : string) :
  (String.length a ≤ j)%nat →
  take j (a +:+ b) = a +:+ take (j - String.length a) b.
Proof.
  revert j. induction a as [|c a IH]; intros j Hj.
  - by rewrite !append_nil, Nat.sub_0_r.
  - destruct j as [|j]; [cbn in Hj; lia|].
    rewrite !append_cons. cbn [take String.length Nat.sub]. f_equal.
    apply IH. cbn in Hj. lia.
Qed.

Lemma take_app_length (a b : string) : take (String.length a) (a +:+ b) = a.
Proof.
  rewrite take_app_ge, Nat.sub_diag by done.
  destruct b; apply app_empty_r.
Qed.

Lemma prefix_app (a b : string) : String.prefix a (a +:+ b) = true.
Proof.
  induction a as [|c a IH]; [by destruct b|].
  rewrite append_cons. cbn [String.prefix].
  by destruct (Ascii.ascii_dec c c).
Qed.

(** Text that is empty or begins with a space. *)
Definition ends_word (t : string) : Prop := t = "" ∨ ∃ t', t = " " +:+ t'.

(** A word followed by a space matches only the same word. *)
Lemma prefix_word (a u t : string) :
  no_space a → no_space u → ends_word t →
  String.prefix (a +:+ " ") (u +:+ t) = true → u = a.
Proof.
  revert u. induction a as [|c a IH]; intros [|d u] Ha Hu Ht;
    rewrite ?append_cons, ?append_nil.
  - done.
  - cbn [String.prefix].
    destruct (Ascii.ascii_dec _ d) as [<-|]; [|done].
    apply no_space_cons in Hu as [[] _]. done.
  - destruct Ht as [->|[t' ->]]; [done|].
    rewrite append_cons. cbn [String.prefix].
    destruct (Ascii.ascii_dec c _) as [->|]; [|done].
    apply no_space_cons in Ha as [[] _]. done.
  - cbn [String.prefix].
    destruct (Ascii.ascii_dec c d) as [->|]; [|done].
    apply no_space_cons in Ha as [_ Ha]. apply no_space_cons in Hu as [_ Hu].
    intros Hp. f_equal. by apply IH.
Qed.

(** The text before the first space of a word and what follows it. *)
Lemma before_space_word (a t : string) :
  no_space a → ends_word t → before " " (a +:+ t) = a.
Proof.
  intros Ha Ht. unfold before.
  assert (find " " (a +:+ t)
          = match t with
            | EmptyString => None
            | _ => Some (String.length a)
            end) as ->.
  { induction a as [|c a IH].
    - destruct Ht as [->|[t' ->]]; [reflexivity|].
      rewrite append_nil, append_cons, append_nil, find_space_cons.
      by rewrite decide_True.
    - apply no_space_cons in Ha as [Hc Ha].
      rewrite append_cons, find_space_cons, decide_False, IH by done.
      by destruct t. }
  destruct t; [apply app_empty_r|apply take_app_length].
Qed.

(** The text before the first space has no space. *)
Lemma before_space_no_space (s : string) : no_space (before " " s).
Proof.
  unfold before. destruct (find " " s) as [i|] eqn:Hf; [|done].
  revert i Hf. induction s as [|c s IH]; intros i; [done|].
  rewrite find_space_cons. case_decide as Hc.
  - by intros [= <-].
  - intros (i' & Hi' & ->)%fmap_Some. cbn [take].
    apply no_space_cons. split; [done|]. by apply IH.
Qed.

(** The equation of [extract_template_from_command] when "--template "
    occurs. *)
Lemma extract_after_token (command : string) (i : nat) :
  find "--template " command = Some i →
  CompareTemplateResults.extract_template_from_command command
  = before " "
      (before "--template "
         (drop (i + String.length "--template ") command)).
Proof.
  intros Hfind.
  unfold CompareTemplateResults.extract_template_from_command.
  rewrite split_unfold, Hfind by done.
  set (rest := drop (i + String.length "--template ") command).
  pose proof (split_rounds_head (String.length command - 1)
                "--template " rest) as Hparts.
  pose proof (split_rounds_nil (String.length command - 1)
                "--template " rest) as Hnil.
  destruct (split_rounds _ "--template " rest) as [|part parts]; [done|].
  cbn [length Nat.ltb Nat.leb lookup_total list_lookup_total].
  cbn [head] in Hparts.
  assert (part = before "--template " rest) as ->.
  { assert (Some part = Some (before "--template " rest)); [|congruence].
    apply Hparts; [done|].
    apply find_Some_length in Hfind.
    unfold rest. rewrite length_drop. cbn in *. lia. }
  pose proof (split_rounds_head
                (String.length (before "--template " rest))
                " " (before "--template " rest)) as Hvalue.
  pose proof (split_rounds_nil
                (String.length (before "--template " rest))
                " " (before "--template " rest)) as Hnil'.
  unfold split.
  destruct (split_rounds _ " " _) as [|value values]; [done|].
  cbn in Hvalue |- *.
  assert (Some value = Some (before " " (before "--template " rest)));
    [|congruence].
  by apply Hvalue.
Qed.

End Words.

(** The extracted identifier never contains a space, whatever the
    command. *)
Theorem extracted_template_has_no_space (command : string) (i : nat) :
  ¬ CommandFacts.occurs_at " "
      (CompareTemplateResults.extract_template_from_command command) i.
Proof.
  revert i. apply CommandFacts.find_None.
  destruct (Py.find "--template " command) as [i|] eqn:Hfind.
  - rewrite (Words.extract_after_token _ _ Hfind).
    apply Words.before_space_no_space.
  - unfold CompareTemplateResults.extract_template_from_command.
    by rewrite CommandFacts.split_unfold, Hfind.
Qed.

Lemma drop_add (n m : nat) (s : string) :
  Py.drop (n + m) s = Py.drop m (Py.drop n s).
Proof.
  revert s. induction n as [|n IH]; intros [|c s]; cbn [Py.drop Nat.add];
    try done.
  by rewrite CommandFacts.drop_empty.
Qed.

(** A command in the form of the docstring gives back its template: when
    the template has no space, does not end in "--template", is followed
    by a space or by the end of the command, and comes after the first
    "--template " of the command, it is the extracted identifier. *)
Theorem extract_recovers_template (pre template rest : string) :
  let command := pre +:+ "--template " +:+ template +:+ rest in
  (∀ j, (j < String.length pre)%nat →
        ¬ CommandFacts.occurs_at "--template " command j) →
  Words.no_space template →
  (∀ j, Py.drop j template ≠ "--template") →
  Words.ends_word rest →
  CompareTemplateResults.extract_template_from_command command = template.
Proof.
  intros command Hfirst Htemplate Hend Hrest.
  assert (Py.find "--template " command = Some (String.length pre)) as Hfind.
  { apply CommandFacts.find_Some. split; [|done].
    unfold CommandFacts.occurs_at, command.
    rewrite Words.drop_app_length. apply Words.prefix_app. }
  rewrite (Words.extract_after_token _ _ Hfind).
  unfold command.
  rewrite drop_add, Words.drop_app_length.
  change (String.length "--template ")
    with (String.length ("--template " : string)).
  rewrite (Words.drop_app_length "--template ").
  assert (∃ tail, CommandFacts.before "--template " (template +:+ rest)
                  = template +:+ tail ∧ Words.ends_word tail)
    as (tail & -> & Htail).
  { unfold CommandFacts.before.
    destruct (Py.find "--template " (template +:+ rest)) as [j|] eqn:Hj;
      [|by exists rest].
    apply CommandFacts.find_Some in Hj as [Hocc _].
    destruct (decide (j ≤ String.length template)%nat) as [Hle|Hgt].
    - exfalso. apply (Hend j).
      unfold CommandFacts.occurs_at in Hocc.
      rewrite Words.drop_app_le in Hocc by done.
      apply (Words.prefix_word "--template" _ rest);
        [done|by apply Words.no_space_drop|done|done].
    - exists (Py.take (j - String.length template) rest).
      split; [apply Words.take_app_ge; lia|].
      destruct (j - String.length template)%nat as [|k] eqn:Hk; [lia|].
      destruct Hrest as [->|[rest' ->]]; [by left|].
      right. by exists (Py.take k rest'). }
  by apply Words.before_space_word.
Qed.

Lemma extract_recovers_template_witness :
  (∀ j, (j < String.length "./bench ")%nat →
        ¬ CommandFacts.occurs_at "--template "
            ("./bench " +:+ "--template " +:+ "{upper}"
             +:+ " --size 1000 --output /dev/null") j)
  ∧ Words.no_space "{upper}"
  ∧ (∀ j, Py.drop j "{upper}" ≠ "--template")
  ∧ Words.ends_word " --size 1000 --output /dev/null"
  ∧ CompareTemplateResults.extract_template_from_command
      ("./bench " +:+ "--template " +:+ "{upper}"
       +:+ " --size 1000 --output /dev/null") = "{upper}".
Proof.
  assert (Py.find "--template "
            ("./bench " +:+ "--template " +:+ "{upper}"
             +:+ " --size 1000 --output /dev/null") = Some 8%nat)
    as [_ Hfirst]%CommandFacts.find_Some by (vm_compute; reflexivity).
  assert (Words.no_space "{upper}") as Hword by (vm_compute; reflexivity).
  assert (∀ j, Py.drop j "{upper}" ≠ "--template") as Hend.
  { intros j Hj. apply (f_equal String.length) in Hj.
    rewrite CommandFacts.length_drop in Hj. cbn in Hj. lia. }
  assert (Words.ends_word " --size 1000 --output /dev/null") as Hrest
    by (right; by exists "--size 1000 --output /dev/null").
  split; [exact Hfirst|]. split; [exact Hword|]. split; [exact Hend|].
  split; [exact Hrest|].
  exact (extract_recovers_template "./bench " "{upper}"
           " --size 1000 --output /dev/null" Hfirst Hword Hend Hrest).
Defined.

(** ** The notes and the units of a row *)

Lemma append_assoc (a b c : string) : (a +:+ b) +:+ c = a +:+ b +:+ c.
Proof.
  induction a as [|x a IH]; [done|].
  by rewrite !Words.append_cons, IH.
Qed.

Lemma Qcdiv_this (x y : Qc) : (this (x / y) == this x / this y)%Q.
Proof.
  unfold Qcdiv. unfold Qcmult, Qcinv, Q2Qc. cbn [this].
  by rewrite !Qred_correct.
Qed.

(** The coefficient of variation that a row tests, in percent:
    [stddev / mean * 100], each operation rounded as Python rounds it. *)
Definition coefficient_of_variation (mean stddev : Qc) : Qc :=
  Py.real (Py.mul (Py.quotient (Py.Float stddev) (Py.Float mean))
                  (Py.Int 100)).

(** A row of the hyperfine table ends with the note "high variance"
    exactly when the current mean is positive and the coefficient of
    variation computed from it is above 10; otherwise the cell holds
    "—".  With a zero or negative mean nothing is divided and the note
    is never set. *)
Theorem high_variance_note `{!Py.Format} (template : string)
    (baseline current : CompareTemplateResults.timing)
    (change : Qc * string) :
  ∃ cells : string,
    CompareTemplateResults.table_row template baseline current change
    = cells +:+ "| "
      +:+ (if decide (0 < CompareTemplateResults.mean current
                      ∧ Py.num 10
                        < coefficient_of_variation
                            (CompareTemplateResults.mean current)
                            (CompareTemplateResults.stddev current))
           then "high variance" else "—")
      +:+ " |".
Proof.
  exists ("| `" +:+ template +:+ "` "
          +:+ "| " +:+ CompareTemplateResults.format_time_ms
                         (CompareTemplateResults.mean baseline) +:+ " "
          +:+ "| " +:+ CompareTemplateResults.format_time_ms
                         (CompareTemplateResults.mean current) +:+ " "
          +:+ "| " +:+ change.2 +:+ " " +:+ Py.fmt_plus_1f change.1 +:+ "% "
          +:+ "| " +:+ CompareTemplateResults.format_time_ms
                         (CompareTemplateResults.min current) +:+ " "
          +:+ "| " +:+ CompareTemplateResults.format_time_ms
                         (CompareTemplateResults.max current) +:+ " "
          +:+ "| ±" +:+ CompareTemplateResults.format_time_ms
                          (CompareTemplateResults.stddev current) +:+ " ").
  unfold CompareTemplateResults.table_row. cbv zeta.
  fold (coefficient_of_variation (CompareTemplateResults.mean current)
          (CompareTemplateResults.stddev current)).
  set (cv := coefficient_of_variation _ _). clearbody cv.
  destruct (Py.gt (CompareTemplateResults.mean current) 0) eqn:Hm.
  - apply gt_true in Hm. destruct (Py.gt cv (Py.num 10)) eqn:Hcv.
    + apply gt_true in Hcv. rewrite decide_True by done.
      rewrite !append_assoc. reflexivity.
    + apply gt_false in Hcv.
      rewrite decide_False by (intros [_ ?]; by apply Qcle_not_lt in Hcv).
      rewrite !append_assoc. reflexivity.
  - apply gt_false in Hm.
    rewrite decide_False by (intros [? _]; by apply Qcle_not_lt in Hm).
    replace (Py.gt 0 (Py.num 10)) with false
      by (symmetry; by apply gt_false).
    rewrite !append_assoc. reflexivity.
Qed.

(** The test is on the rounded coefficient.  At the mean 0.001 and the
    standard deviation 0.0001 (the floats nearest to these decimals) the
    coefficient is exactly 10 and no note is set, although the mean is
    below ten times the standard deviation; at 0.051 and 0.0051 the
    coefficient is above 10. *)
Lemma coefficient_of_variation_rounds :
  let mean := Py.binary64 (Py.num 1 / Py.num 1000) in
  let stddev := Py.binary64 (Py.num 1 / Py.num 10000) in
  coefficient_of_variation mean stddev = Py.num 10
  ∧ mean < Py.num 10 * stddev
  ∧ Py.num 10
    < coefficient_of_variation (Py.binary64 (Py.num 51 / Py.num 1000))
        (Py.binary64 (Py.num 51 / Py.num 10000)).
Proof.
  repeat split; [|vm_compute; reflexivity..].
  apply (bool_decide_unpack _). vm_compute. reflexivity.
Qed.

Lemma num_this (n : Z) : this (Py.num n) = inject_Z n.
Proof. reflexivity. Qed.

(** A count scaled by a positive unit. *)
Lemma scaled_bounds (n k : Z) :
  (0 < k)%Z →
  let value := Py.num n / Py.num k in
  value * Py.num k = Py.num n
  ∧ (Py.num 1 ≤ value ↔ (k ≤ n)%Z)
  ∧ (value < Py.num 1000 ↔ (n < 1000 * k)%Z).
Proof.
  intros Hk value.
  pose proof (Qcdiv_this (Py.num n) (Py.num k)) as Hv. fold value in Hv.
  clearbody value. rewrite !num_this in Hv.
  assert (0 < inject_Z k)%Q as HK.
  { change 0%Q with (inject_Z 0). by rewrite <- Zlt_Qlt. }
  assert (this value * inject_Z k == inject_Z n)%Q as Hq.
  { rewrite Hv. field. lra. }
  split; [|split].
  - apply Qc_eq_this. by rewrite Qcmult_this, !num_this.
  - unfold Qcle. rewrite !num_this, (Zle_Qle k n).
    change (inject_Z 1) with 1%Q. split; intros; nra.
  - unfold Qclt. rewrite !num_this, (Zlt_Qlt n (1000 * k)), inject_Z_mult.
    change (inject_Z 1000) with 1000%Q. split; intros; nra.
Qed.

(** [format_duration_ns] prints a count below 1000 (a negative one
    included) as it is, in "ns"; from 1000 on it prints the count divided
    by the largest of 1000, 1000000 and 1000000000 that does not exceed
    it, so the printed value is at least 1 and, in "μs" and "ms", below
    1000. *)
Theorem format_duration_ns_unit `{!Py.Format} (ns : Z) :
  ((ns < 1000)%Z →
   CompareBenchmarks.format_duration_ns ns = Py.str_int ns +:+ "ns")
  ∧ ((1000 ≤ ns)%Z →
     ∃ (value : Qc) (unit : string) (scale : Z),
       CompareBenchmarks.format_duration_ns ns = Py.fmt_2f value +:+ unit
       ∧ value * Py.num scale = Py.num ns
       ∧ Py.num 1 ≤ value
       ∧ ((unit = "μs" ∧ scale = 1000%Z ∧ value < Py.num 1000)
          ∨ (unit = "ms" ∧ scale = 1000000%Z ∧ value < Py.num 1000)
          ∨ (unit = "s" ∧ scale = 1000000000%Z))).
Proof.
  unfold CompareBenchmarks.format_duration_ns. split.
  - intros Hns. by rewrite (proj2 (Z.ltb_lt ns 1000) Hns).
  - intros Hns. rewrite (proj2 (Z.ltb_ge ns 1000) Hns).
    destruct (Z.ltb_spec ns 1000000) as [Hus|Hus];
      [|destruct (Z.ltb_spec ns 1000000000) as [Hms|Hms]].
    + destruct (scaled_bounds ns 1000) as (Heq & Hlo & Hhi); [lia|].
      eexists _, "μs", 1000%Z. split; [reflexivity|].
      split; [exact Heq|]. split; [apply Hlo; lia|].
      left. repeat split. apply Hhi. lia.
    + destruct (scaled_bounds ns 1000000) as (Heq & Hlo & Hhi); [lia|].
      eexists _, "ms", 1000000%Z. split; [reflexivity|].
      split; [exact Heq|]. split; [apply Hlo; lia|].
      right. left. repeat split. apply Hhi. lia.
    + destruct (scaled_bounds ns 1000000000) as (Heq & Hlo & Hhi); [lia|].
      eexists _, "s", 1000000000%Z. split; [reflexivity|].
      split; [exact Heq|]. split; [apply Hlo; lia|].
      right. right. done.
Qed.

Lemma format_duration_ns_unit_witness :
  (1000 ≤ 1500000)%Z
  ∧ ∃ (value : Qc) (unit : string) (scale : Z),
      @CompareBenchmarks.format_duration_ns Decimal.format 1500000
      = @Py.fmt_2f Decimal.format value +:+ unit
      ∧ value * Py.num scale = Py.num 1500000
      ∧ Py.num 1 ≤ value
      ∧ ((unit = "μs" ∧ scale = 1000%Z ∧ value < Py.num 1000)
         ∨ (unit = "ms" ∧ scale = 1000000%Z ∧ value < Py.num 1000)
         ∨ (unit = "s" ∧ scale = 1000000000%Z)).
Proof.
  assert (1000 ≤ 1500000)%Z as H by lia.
  split; [exact H|].
  exact (proj2 (@format_duration_ns_unit Decimal.format 1500000) H).
Defined.

(** [format_throughput] prints a rate of at least 1000000 divided by
    1000000, in "M/s", a rate from 1000 up to 1000000 divided by 1000, in
    "K/s", and a smaller rate (zero or negative included) as it is: above
    1000 the printed value is at least 1 and, in "K/s", below 1000. *)
Theorem format_throughput_unit `{!Py.Format} (paths_per_sec : Qc) :
  (paths_per_sec < Py.num 1000 →
   CompareBenchmarks.format_throughput paths_per_sec
   = Py.fmt_2f paths_per_sec +:+ "/s")
  ∧ (Py.num 1000 ≤ paths_per_sec →
     ∃ (value : Qc) (unit : string) (scale : Z),
       CompareBenchmarks.format_throughput paths_per_sec
       = Py.fmt_2f value +:+ unit
       ∧ value * Py.num scale = paths_per_sec
       ∧ Py.num 1 ≤ value
       ∧ ((unit = "K/s" ∧ scale = 1000%Z ∧ value < Py.num 1000)
          ∨ (unit = "M/s" ∧ scale = 1000000%Z))).
Proof.
  unfold CompareBenchmarks.format_throughput, Py.ge.
  assert (∀ k : Z, (0 < k)%Z →
            let value := paths_per_sec / Py.num k in
            (this value * inject_Z k == this paths_per_sec)%Q) as Hscale.
  { intros k Hk value. unfold value. rewrite Qcdiv_this, num_this.
    assert (0 < inject_Z k)%Q
      by (change 0%Q with (inject_Z 0); by rewrite <- Zlt_Qlt).
    field. lra. }
  split.
  - intros Hlt.
    rewrite bool_decide_eq_false_2
      by (intros Hge; apply (Qcle_not_lt _ _ Hge);
          eapply Qclt_trans; [exact Hlt|done]).
    rewrite bool_decide_eq_false_2 by by apply Qclt_not_le.
    done.
  - intros Hge. case_bool_decide as Hm.
    + pose proof (Hscale 1000000%Z ltac:(lia)) as Hq. cbv zeta in Hq.
      eexists _, "M/s", 1000000%Z. split; [reflexivity|].
      set (value := paths_per_sec / Py.num 1000000) in *. clearbody value.
      split; [|split; [|by right]].
      * apply Qc_eq_this. by rewrite Qcmult_this, num_this.
      * revert Hm Hq. unfold Qcle. rewrite !num_this.
        unfold inject_Z. intros. nra.
    + rewrite bool_decide_eq_true_2 by done.
      pose proof (Hscale 1000%Z ltac:(lia)) as Hq. cbv zeta in Hq.
      eexists _, "K/s", 1000%Z. split; [reflexivity|].
      set (value := paths_per_sec / Py.num 1000) in *. clearbody value.
      apply Qcnot_le_lt in Hm.
      split; [|split; [|left; repeat split]].
      * apply Qc_eq_this. by rewrite Qcmult_this, num_this.
      * revert Hge Hq. unfold Qcle. rewrite !num_this.
        unfold inject_Z. intros. nra.
      * revert Hm Hq. unfold Qclt. rewrite !num_this.
        unfold inject_Z. intros. nra.
Qed.

Lemma format_throughput_unit_witness :
  Py.num 1000 ≤ Py.num 2100000
  ∧ ∃ (value : Qc) (unit : string) (scale : Z),
      @CompareBenchmarks.format_throughput Decimal.format (Py.num 2100000)
      = @Py.fmt_2f Decimal.format value +:+ unit
      ∧ value * Py.num scale = Py.num 2100000
      ∧ Py.num 1 ≤ value
      ∧ ((unit = "K/s" ∧ scale = 1000%Z ∧ value < Py.num 1000)
         ∨ (unit = "M/s" ∧ scale = 1000000%Z)).
Proof.
  assert (Py.num 1000 ≤ Py.num 2100000) as H by done.
  split; [exact H|].
  exact (proj2 (@format_throughput_unit Decimal.format (Py.num 2100000)) H).
Defined.

(** ** The entry points

    The file system is a dictionary from the paths that exist to what
    loading them gives: a document of the schema, or the exception that
    [open] or [json.load] raises, with its text.  Only the standard
    output and the exit status are modelled; the traceback goes to the
    standard error. *)

Module BenchmarksMain.
Import Py CompareBenchmarks.

Inductive file : Type :=
| Unreadable (error : string)
| Readable (doc : document).

Record outcome := {
  printed : list string;
  exit_status : Z
}.

Section main.
Context `{!Format, !SetOrder}.

(** [str(e)] for the exceptions of the comparison, and for the
    [FileNotFoundError] of a path. *)
Context (str : exn → string) (not_found : string → string).

(** The text of the exception of [load_benchmark_results], or the
    document. *)
Definition load_benchmark_results (files : gmap string file)
    (filepath : string) : string + document :=
  match files !! filepath with
  | Some (Readable doc) => inr doc
  | Some (Unreadable error) => inl error
  | None => inl (not_found filepath)
  end.

Definition failed (error : string) : outcome :=
  {| printed := ["Error comparing benchmarks: " +:+ error];
     exit_status := 1 |}.

Definition main (files : gmap string file) (argv : list string) : outcome :=
  if bool_decide (length argv ≠ 3%nat) then
    {| printed :=
         ["Usage: compare_benchmarks.py <baseline.json> <current.json>"];
       exit_status := 1 |}
  else
    let baseline_path := argv !!! 1%nat in
    let current_path := argv !!! 2%nat in
    if negb (contains files baseline_path) then
      {| printed := ["Error: Baseline file not found: " +:+ baseline_path];
         exit_status := 1 |}
    else if negb (contains files current_path) then
      {| printed := ["Error: Current file not found: " +:+ current_path];
         exit_status := 1 |}
    else
      match load_benchmark_results files baseline_path with
      | inl error => failed error
      | inr baseline =>
        match load_benchmark_results files current_path with
        | inl error => failed error
        | inr current =>
          match compare_benchmarks baseline current with
          | Return report => {| printed := [report]; exit_status := 0 |}
          | Raise e => failed (str e)
          end
        end
      end.

End main.
End BenchmarksMain.


Module TemplatesMain.
Import Py CompareTemplateResults.

(** What loading an existing path gives: a [json.JSONDecodeError] with
    its text, another exception with its text and the lines that
    [traceback.print_exc] writes for it, or a document. *)
Inductive file : Type :=
| Invalid (error : string)
| Unreadable (error : string) (traceback : list string)
| Readable (doc : document).

(** The exceptions that [main] tells apart. *)
Inductive failure : Type :=
| FileNotFoundError (text : string)
| JSONDecodeError (text : string)
| Exception (text : string) (traceback : list string).

(** The namespace that [parse_args] returns. *)
Record args := {
  baseline_json : string;
  current_json : string;
  baseline_name : string;
  current_name : string;
  size : option Z
}.

(** The lines written to the two streams, and the exit status. *)
Record outcome := {
  stdout : list string;
  stderr : list string;
  exit_status : Z
}.

Section main.
Context `{!Format, !SetOrder}.

(** [str(e)] and the lines of [traceback.print_exc()] for the
    exceptions of the comparison, and [str(e)] for the
    [FileNotFoundError] of a path. *)
Context (str : exn → string) (trace : exn → list string)
        (not_found : string → string).

Definition load_hyperfine_json (files : gmap string file)
    (filepath : string) : failure + document :=
  match files !! filepath with
  | None => inl (FileNotFoundError (not_found filepath))
  | Some (Invalid error) => inl (JSONDecodeError error)
  | Some (Unreadable error traceback) => inl (Exception error traceback)
  | Some (Readable doc) => inr doc
  end.

(** The three [except] clauses of [main]. *)
Definition handle (e : failure) : outcome :=
  match e with
  | FileNotFoundError text =>
    {| stdout := []; stderr := ["Error: File not found: " +:+ text];
       exit_status := 1 |}
  | JSONDecodeError text =>
    {| stdout := []; stderr := ["Error: Invalid JSON: " +:+ text];
       exit_status := 1 |}
  | Exception text traceback =>
    {| stdout := []; stderr := ("Error: " +:+ text) :: traceback;
       exit_status := 1 |}
  end.

Definition main (files : gmap string file) (a : args) : outcome :=
  match load_hyperfine_json files (baseline_json a) with
  | inl e => handle e
  | inr baseline_data =>
    match load_hyperfine_json files (current_json a) with
    | inl e => handle e
    | inr current_data =>
      match generate_comparison_report baseline_data current_data
              (baseline_name a) (current_name a) (size a) with
      | Return report =>
        {| stdout := [report]; stderr := []; exit_status := 0 |}
      | Raise e => handle (Exception (str e) (trace e))
      end
    end
  end.

End main.
End TemplatesMain.


